(** * Event registration dashboard ([app.py]): a shallow embedding

    The dashboard is one Streamlit script over pandas data frames.  The
    frames are modelled as the code uses them (string column names, rows of
    cells, boolean masks, in-place updates through a reference), the
    script as a computation that threads the objects it allocates and the
    widgets it renders, and that may return, raise a Python exception, or
    be halted by [st.stop()]. *)

From Stdlib Require Import QArith Ascii String.
From stdpp Require Import base strings gmap list pretty sorting.

Open Scope string_scope.
Open Scope Z_scope.

(** ** Python values held in a cell *)

(** A number as pandas holds it after [to_numeric]: an integer, a finite
    float (its exact rational value) or an infinity. *)
Inductive number :=
| NInt (z : Z)
| NFloat (q : Q)
| NInf (negative : bool).

(** One cell of a frame.  [NA] stands for every missing marker ([NaN],
    [NaT], [None]); a timestamp is its count of nanoseconds since the epoch
    in UTC; a [datetime.date] is its count of days since the epoch (dates
    compare as these counts do); [VList] is the list that [str.split]
    leaves in a cell. *)
Inductive value :=
| NA
| VStr (s : string)
| VNum (x : number)
| VTimestamp (ns : Z)
| VDate (days : Z)
| VList (items : list string).

Definition notna (v : value) : bool :=
  match v with NA => false | _ => true end.

Definition number_eqb (x y : number) : bool :=
  match x, y with
  | NInt a, NInt b => Z.eqb a b
  | NInt a, NFloat q | NFloat q, NInt a => Qeq_bool (inject_Z a) q
  | NFloat p, NFloat q => Qeq_bool p q
  | NInf a, NInf b => Bool.eqb a b
  | _, _ => false
  end.

(** Equality as [Series.isin] sees it: missing matches missing, numbers
    compare by value. *)
Definition value_eqb (v w : value) : bool :=
  match v, w with
  | NA, NA => true
  | VStr s, VStr t => bool_decide (s = t)
  | VNum x, VNum y => number_eqb x y
  | VTimestamp a, VTimestamp b => Z.eqb a b
  | VDate a, VDate b => Z.eqb a b
  | VList a, VList b => bool_decide (a = b)
  | _, _ => false
  end.

(** ** Exceptions and the result of running code *)

Inductive exn :=
| KeyError (key_repr : string)
| IndexError (msg : string)
| ValueError (msg : string)
| TypeError (msg : string)
| AttributeError (msg : string)
| IntCastingNaNError
| ReaderError (msg : string)
| StreamlitAPIException (msg : string).

(** [str(e)], the text an f-string puts in place of [{e}]. *)
Definition exn_str (e : exn) : string :=
  match e with
  | KeyError k => k
  | IndexError m | ValueError m | TypeError m | AttributeError m
  | ReaderError m | StreamlitAPIException m => m
  | IntCastingNaNError =>
      "Cannot convert non-finite values (NA or inf) to integer"
  end.

(** A piece of code returns, raises an [Exception], or is halted by
    [st.stop()].  Streamlit's stop signal derives from [BaseException], so
    an [except Exception] clause does not catch it. *)
Inductive outcome (A : Type) :=
| Ret (a : A)
| Raise (e : exn)
| Stop.
Arguments Ret {A} a.
Arguments Raise {A} e.
Arguments Stop {A}.

(** ** Data frames *)

Record DataFrame := mkDF {
  columns : list string;
  rows : list (gmap string value)
}.

Definition empty_frame : DataFrame := mkDF [] [].

Global Instance DataFrame_inhabited : Inhabited DataFrame :=
  populate empty_frame.

(** [df.empty]: some axis has length zero. *)
Definition df_empty (d : DataFrame) : bool :=
  match columns d, rows d with
  | [], _ | _, [] => true
  | _, _ => false
  end.

Definition cell (c : string) (r : gmap string value) : value :=
  default NA (r !! c).

(** [repr(c)] of a column name. *)
Definition quoted (c : string) : string := "'" +:+ c +:+ "'".

(** [df[c]] read as a column. *)
Definition getitem (c : string) (d : DataFrame) : exn + list value :=
  if bool_decide (c ∈ columns d) then inr (cell c <$> rows d)
  else inl (KeyError (quoted c)).

(** [df[c] = vals]: the column is replaced, or appended when new. *)
Definition setitem (c : string) (vals : list value) (d : DataFrame)
  : exn + DataFrame :=
  if bool_decide (length vals = length (rows d)) then
    inr (mkDF (if bool_decide (c ∈ columns d) then columns d
               else columns d ++ [c])
              (zip_with (λ r v, <[c := v]> r) (rows d) vals))
  else inl (ValueError "Length of values does not match length of index").

(** [df[mask]] for a boolean mask. *)
Fixpoint select_rows {A} (mask : list bool) (l : list A) : list A :=
  match mask, l with
  | b :: mask', x :: l' =>
      if b then x :: select_rows mask' l' else select_rows mask' l'
  | _, _ => []
  end.

Definition getitem_mask (mask : list bool) (d : DataFrame) : DataFrame :=
  mkDF (columns d) (select_rows mask (rows d)).

(** [df.dropna(subset=cs)]: keep the rows whose cells in [cs] are all
    present. *)
Definition dropna (cs : list string) (d : DataFrame) : exn + DataFrame :=
  match list_find (λ c, c ∉ columns d) cs with
  | Some (_, c) => inl (KeyError (quoted c))
  | None =>
      inr (mkDF (columns d)
                (List.filter (λ r, forallb (λ c, notna (cell c r)) cs)
                             (rows d)))
  end.

(** ** Python string methods *)

Fixpoint starts_with (p s : string) : bool :=
  match p, s with
  | EmptyString, _ => true
  | String a p', String b s' => bool_decide (a = b) && starts_with p' s'
  | String _ _, EmptyString => false
  end.

(** [s.replace(old, new)] for a non-empty [old]: occurrences are replaced
    from the left and do not overlap; [skip] counts the characters of an
    occurrence still to be passed over. *)
Fixpoint replace_from (old new : string) (skip : nat) (s : string) : string :=
  match s with
  | EmptyString => EmptyString
  | String c s' =>
      match skip with
      | S k => replace_from old new k s'
      | O =>
          if starts_with old s
          then new +:+ replace_from old new (Nat.pred (String.length old)) s'
          else String c (replace_from old new 0 s')
      end
  end.

Definition str_replace (old new s : string) : string :=
  replace_from old new 0 s.

(** [s.split(sep)] for a one-character separator: never an empty list. *)
Fixpoint str_split (sep : ascii) (s : string) : list string :=
  match s with
  | EmptyString => [EmptyString]
  | String c s' =>
      if bool_decide (c = sep) then EmptyString :: str_split sep s'
      else match str_split sep s' with
           | w :: ws => String c w :: ws
           | [] => [String c EmptyString]
           end
  end.

(** The ASCII characters that [str.strip()] removes. *)
Definition py_isspace (c : ascii) : bool :=
  let n := nat_of_ascii c in
  ((9 <=? n) && (n <=? 13) || (28 <=? n) && (n <=? 32))%nat.

Fixpoint str_lstrip (s : string) : string :=
  match s with
  | String c s' => if py_isspace c then str_lstrip s' else s
  | EmptyString => EmptyString
  end.

Fixpoint str_rstrip (s : string) : string :=
  match s with
  | String c s' =>
      match str_rstrip s' with
      | EmptyString => if py_isspace c then EmptyString
                       else String c EmptyString
      | t => String c t
      end
  | EmptyString => EmptyString
  end.

Definition str_strip (s : string) : string := str_rstrip (str_lstrip s).

Definition newline : string := String (ascii_of_nat 10) EmptyString.
Definition crlf : string := String (ascii_of_nat 13) newline.

(** The three bytes of U+FEFF in UTF-8. *)
Definition bom : string :=
  String (ascii_of_nat 239)
    (String (ascii_of_nat 187) (String (ascii_of_nat 191) EmptyString)).

(** ** What the libraries decide

    pandas, the codec and the platform are not part of the repository; the
    script's behaviour is stated for whatever they do.
    - [decode_ignore]: [bytes.decode('utf-8', errors='ignore')];
    - [read_csv]: [pd.read_csv(io.StringIO(text), on_bad_lines='skip')],
      which returns a frame or raises;
    - [parse_datetime col v]: how [pd.to_datetime(col, errors='coerce',
      utc=True)] reads the cell [v] of [col] (the format is inferred from
      the column), [None] for [NaT];
    - [parse_numeric s]: how [pd.to_numeric(_, errors='coerce')] reads the
      text [s], [None] for [NaN];
    - [cast_overflow q]: what the platform's float-to-int64 cast leaves for
      a finite [q] outside the int64 range;
    - [sort_values l]: the order in which [value_counts] leaves the counted
      values. *)
Class Library := {
  decode_ignore : string → string;
  read_csv : string → exn + DataFrame;
  parse_datetime : list value → value → option Z;
  parse_numeric : string → option number;
  cast_overflow : Q → Z;
  sort_values : list (value * nat) → list (value * nat)
}.


(** ** Column operations of pandas *)

Fixpoint traverse {A B} (f : A → exn + B) (l : list A) : exn + list B :=
  match l with
  | [] => inr []
  | x :: l' =>
      match f x with
      | inl e => inl e
      | inr y =>
          match traverse f l' with
          | inl e => inl e
          | inr ys => inr (y :: ys)
          end
      end
  end.

Definition ns_per_day : Z := 86400000000000.

Definition in_int64 (z : Z) : bool :=
  (-9223372036854775808 <=? z) && (z <=? 9223372036854775807).

(** The integer part of a rational, rounding toward zero. *)
Definition truncate (q : Q) : Z := Z.quot (Qnum q) (Zpos (Qden q)).

Section columns.
Context `{Library}.

(** [pd.to_datetime(col, errors='coerce', utc=True)]: a cell that does not
    parse becomes missing. *)
Definition timestamp_cell (col : list value) (v : value) : value :=
  from_option VTimestamp NA (parse_datetime col v).

Definition to_datetime (col : list value) : list value :=
  timestamp_cell col <$> col.

(** [col.dt.date]: the time of day is cut off. *)
Definition dt_date (col : list value) : exn + list value :=
  traverse (λ v, match v with
                 | VTimestamp ns => inr (VDate (ns `div` ns_per_day))
                 | NA => inr NA
                 | _ => inl (AttributeError
                     "Can only use .dt accessor with datetimelike values")
                 end) col.

(** [pd.to_numeric(col, errors='coerce')]: a cell that is not a number
    becomes missing. *)
Definition numeric_cell (v : value) : value :=
  match v with
  | VStr s => from_option VNum NA (parse_numeric s)
  | VNum x => VNum x
  | _ => NA
  end.

Definition to_numeric (col : list value) : list value :=
  numeric_cell <$> col.

Definition int_of_number (x : number) : exn + Z :=
  match x with
  | NInt z => inr z
  | NFloat q =>
      inr (if in_int64 (truncate q) then truncate q else cast_overflow q)
  | NInf _ => inl IntCastingNaNError
  end.

(** [col.astype(int)] on a numeric column. *)
Definition astype_int (col : list value) : exn + list Z :=
  traverse (λ v, match v with
                 | VNum x => int_of_number x
                 | NA => inl IntCastingNaNError
                 | _ => inl (TypeError
                     "int() argument must be a string or a real number")
                 end) col.

(** [ints.astype(str)]. *)
Definition astype_str (ints : list Z) : list value :=
  (λ z, VStr (pretty z)) <$> ints.
End columns.

(** ** What the script renders *)

Inductive widget :=
| PageConfig (page_title layout : string)
| FileUploader (label : string)
| Title (body : string)
| Markdown (body : string)
| Header (body : string)
| SidebarHeader (body : string)
| Info (body icon : string)
| Error (body : string) (icon : option string)
| Warning (body : string)
| Multiselect (label : string) (options : list value)
| DateInput (label : string) (min_value max_value : value)
| Metric (label : string) (shown : value) (delta : option string).

(** ** The state a run threads

    Frames are objects: a variable holds a reference, and an in-place
    update is seen through every reference to the frame. *)

Record world := mkWorld {
  heap : gmap nat DataFrame;
  screen : list widget
}.

Definition M (A : Type) : Type := world → outcome A * world.

Global Instance M_ret : MRet M := λ A a w, (Ret a, w).

Global Instance M_bind : MBind M := λ A B f m w,
  match m w with
  | (Ret a, w') => f a w'
  | (Raise e, w') => (Raise e, w')
  | (Stop, w') => (Stop, w')
  end.

Definition raise {A} (e : exn) : M A := λ w, (Raise e, w).

(** [st.stop()]. *)
Definition st_stop {A} : M A := λ w, (Stop, w).

Definition lift {A} (x : exn + A) : M A :=
  match x with inl e => raise e | inr a => mret a end.

Definition render (x : widget) : M () := λ w,
  (Ret (), mkWorld (heap w) (screen w ++ [x])).

(** [try: body except Exception as e: handler e]. *)
Definition try_except {A} (body : M A) (handler : exn → M A) : M A := λ w,
  match body w with
  | (Raise e, w') => handler e w'
  | res => res
  end.

Definition deref (l : nat) : M DataFrame := λ w, (Ret (heap w !!! l), w).

Definition assign (l : nat) (d : DataFrame) : M () := λ w,
  (Ret (), mkWorld (<[l := d]> (heap w)) (screen w)).

(** A new frame object. *)
Definition new_frame (d : DataFrame) : M nat := λ w,
  let l := fresh (dom (heap w)) in
  (Ret l, mkWorld (<[l := d]> (heap w)) (screen w)).

(** [df.copy()]. *)
Definition df_copy (l : nat) : M nat := d ← deref l; new_frame d.

(** [df[c]]. *)
Definition df_getitem (l : nat) (c : string) : M (list value) :=
  d ← deref l; lift (getitem c d).

(** [df[c] = vals]. *)
Definition df_setitem (l : nat) (c : string) (vals : list value) : M () :=
  d ← deref l; d' ← lift (setitem c vals d); assign l d'.

(** [df.dropna(subset=cs, inplace=True)]. *)
Definition df_dropna_inplace (l : nat) (cs : list string) : M () :=
  d ← deref l; d' ← lift (dropna cs d); assign l d'.


(** ** Series operations used by the filters and the views *)

Global Instance exn_ret : MRet (sum exn) := λ A a, inr a.

Global Instance exn_bind : MBind (sum exn) := λ A B f x,
  match x with inl e => inl e | inr a => f a end.

(** [col.isin(vals)]. *)
Definition isin (vals col : list value) : list bool :=
  (λ v, existsb (value_eqb v) vals) <$> col.

Definition ordering_error (op : string) : exn :=
  TypeError ("'" +:+ op +:+ "' not supported between instances").

(** [col >= d] and [col <= d] against a [datetime.date]. *)
Definition series_ge (col : list value) (d : value) : exn + list bool :=
  traverse (λ v, match v, d with
                 | VDate a, VDate b => inr (b <=? a)
                 | _, _ => inl (ordering_error ">=")
                 end) col.

Definition series_le (col : list value) (d : value) : exn + list bool :=
  traverse (λ v, match v, d with
                 | VDate a, VDate b => inr (a <=? b)
                 | _, _ => inl (ordering_error "<=")
                 end) col.

(** [col == v]: a missing cell equals nothing. *)
Definition series_eq (col : list value) (w : value) : list bool :=
  (λ v, notna v && value_eqb v w) <$> col.

(** [m1 & m2]. *)
Definition mask_and (m1 m2 : list bool) : list bool := zip_with andb m1 m2.

(** [col.dropna()]. *)
Definition series_dropna (col : list value) : list value :=
  List.filter notna col.

(** [col.unique()]: the distinct values in order of first appearance. *)
Fixpoint unique_from (seen col : list value) : list value :=
  match col with
  | [] => []
  | v :: col' =>
      if existsb (value_eqb v) seen then unique_from seen col'
      else v :: unique_from (v :: seen) col'
  end.

Definition unique (col : list value) : list value := unique_from [] col.

Definition as_str (v : value) : option string :=
  match v with VStr s => Some s | _ => None end.

Definition as_num (v : value) : option number :=
  match v with VNum x => Some x | _ => None end.

Definition number_Q (x : number) : Q :=
  match x with NInt z => inject_Z z | NFloat q => q | NInf _ => 0%Q end.

Definition number_leb (x y : number) : bool :=
  match x, y with
  | NInf true, _ | _, NInf false => true
  | NInf false, _ | _, NInf true => false
  | _, _ => Qle_bool (number_Q x) (number_Q y)
  end.

Definition number_le (x y : number) : Prop := number_leb x y.

Global Instance number_le_dec : RelDecision number_le.
Proof. intros x y. unfold number_le. apply _. Defined.

(** [sorted(l)] on the lists the script sorts: all strings or all numbers;
    Python refuses to order a mixed list. *)
Definition py_sorted (l : list value) : exn + list value :=
  match mapM as_str l with
  | Some ss => inr (VStr <$> merge_sort String.le ss)
  | None =>
      match mapM as_num l with
      | Some xs => inr (VNum <$> merge_sort number_le xs)
      | None => inl (ordering_error "<")
      end
  end.

(** [col.min()] and [col.max()] on a column of dates; missing for an empty
    column. *)
Definition series_min (col : list value) : value :=
  foldr (λ v acc, match v, acc with
                  | VDate a, VDate b => VDate (Z.min a b)
                  | VDate a, _ => VDate a
                  | _, _ => acc
                  end) NA col.

Definition series_max (col : list value) : value :=
  foldr (λ v acc, match v, acc with
                  | VDate a, VDate b => VDate (Z.max a b)
                  | VDate a, _ => VDate a
                  | _, _ => acc
                  end) NA col.

(** The counts are in descending order. *)
Definition count_ge (a b : value * nat) : Prop := (b.2 ≤ a.2)%nat.

(** The hash table behind [value_counts] and [mode]: each distinct value
    with its number of occurrences, in order of first appearance. *)
Fixpoint bump (v : value) (acc : list (value * nat)) : list (value * nat) :=
  match acc with
  | [] => [(v, 1%nat)]
  | (w, n) :: acc' =>
      if value_eqb v w then (w, S n) :: acc' else (w, n) :: bump v acc'
  end.

Definition count_values (col : list value) : list (value * nat) :=
  foldl (λ acc v, bump v acc) [] col.

(** [nlargest(n)], with its default [keep='first']: a stable descending
    sort, cut after [n] entries. *)
Fixpoint insert_desc (x : value * nat) (l : list (value * nat))
  : list (value * nat) :=
  match l with
  | [] => [x]
  | y :: l' =>
      if decide (y.2 ≤ x.2)%nat then x :: l else y :: insert_desc x l'
  end.

Definition sort_desc (l : list (value * nat)) : list (value * nat) :=
  foldr insert_desc [] l.

Definition nlargest (n : nat) (s : list (value * nat)) : list (value * nat) :=
  take n (sort_desc s).

(** [col.mode()]: the most frequent values, sorted when they can be. *)
Definition mode (col : list value) : list value :=
  let counts := count_values (series_dropna col) in
  let top := max_list (snd <$> counts) in
  let modes := fst <$> List.filter (λ p, Nat.eqb p.2 top) counts in
  match py_sorted modes with inr l => l | inl _ => modes end.

(** [col.str.split(';')], [col.str.strip()]: cells that are not text come
    out missing. *)
Definition str_split_col (col : list value) : list value :=
  (λ v, match v with
        | VStr s => VList (str_split ";"%char s)
        | _ => NA
        end) <$> col.

Definition str_strip_col (col : list value) : list value :=
  (λ v, match v with VStr s => VStr (str_strip s) | _ => NA end) <$> col.

(** [df.explode(c)]: one row per item of the list in column [c]; an empty
    list leaves one row with a missing cell. *)
Definition explode_row (c : string) (r : gmap string value)
  : list (gmap string value) :=
  match cell c r with
  | VList [] => [<[c := NA]> r]
  | VList items => (λ e, <[c := VStr e]> r) <$> items
  | _ => [r]
  end.

Definition explode (c : string) (d : DataFrame) : exn + DataFrame :=
  if bool_decide (c ∈ columns d)
  then inr (mkDF (columns d) (rows d ≫= explode_row c))
  else inl (KeyError (quoted c)).

Section counting.
Context `{Library}.

(** [col.value_counts()]: missing cells are not counted. *)
Definition value_counts (col : list value) : list (value * nat) :=
  sort_values (count_values (series_dropna col)).

End counting.

(** ** The session

    What the browser side hands to one run of the script: the uploaded
    file (its bytes) if there is one, and what each input widget returns
    for the options it is shown.  [date_input] returns the dates picked, a
    tuple of up to two, or raises when Streamlit refuses its arguments. *)
Class Session := {
  uploaded_file : option string;
  multiselect : string → list value → list value;
  date_input : string → value → value → exn + list value
}.

(** [a, b = t]. *)
Definition unpack2 (t : list value) : exn + value * value :=
  match t with
  | [a; b] => inr (a, b)
  | [] => inl (ValueError "not enough values to unpack (expected 2, got 0)")
  | [_] => inl (ValueError "not enough values to unpack (expected 2, got 1)")
  | _ => inl (ValueError "too many values to unpack (expected 2)")
  end.

(** A row under renamed column labels. *)
Definition rename_row (f : string → string) (r : gmap string value)
  : gmap string value :=
  list_to_map (prod_map f id <$> map_to_list r).

(** [df.columns = df.columns.str.replace(...)]. *)
Definition df_set_columns (l : nat) (f : string → string) : M () :=
  d ← deref l;
  assign l (mkDF (f <$> columns d) (rename_row f <$> rows d)).

(** [head[0]] on a default index, [head.iloc[0]]. *)
Definition label0 {A} (s : list A) : exn + A :=
  match s with x :: _ => inr x | [] => inl (KeyError "0") end.

Definition iloc0 {A} (s : list A) : exn + A :=
  match s with
  | x :: _ => inr x
  | [] => inl (IndexError "single positional indexer is out-of-bounds")
  end.

(** ** The script *)

Section script.
Context `{Library} `{Session}.

(** [preprocess_data(df)], lines 14-23; the second [return] is never
    reached. *)
Definition preprocess_data (df : nat) : M nat :=
  created ← df_getitem df "Created At";
  df_setitem df "Created At" (to_datetime created);;
  df_dropna_inplace df ["Created At"];;
  created ← df_getitem df "Created At";
  dates ← lift (dt_date created);
  df_setitem df "Registration Date" dates;;
  years ← df_getitem df "Year of Study";
  df_setitem df "Year of Study Cleaned" (to_numeric years);;
  df_dropna_inplace df ["Year of Study Cleaned"];;
  cleaned ← df_getitem df "Year of Study Cleaned";
  ints ← lift (astype_int cleaned);
  df_setitem df "Year of Study Cleaned" (astype_str ints);;
  mret df.

Definition empty_message : string :=
  "The uploaded CSV file is empty or could not be read.".

Definition read_failure_message (e : exn) : string :=
  "⚠️ Could not read the CSV file. Try re-saving it as UTF-8 format."
  +:+ newline +:+ newline +:+ "Error details: " +:+ exn_str e.

(** Lines 42-55: read the upload and normalise a copy of it. *)
Definition ingest (bytes : string) : M nat :=
  try_except
    (let content := decode_ignore bytes in
     let content := str_replace crlf newline content in
     parsed ← lift (read_csv content);
     df_raw ← new_frame parsed;
     df_set_columns df_raw (str_replace bom "");;
     raw ← deref df_raw;
     (if df_empty raw
      then render (Error empty_message (Some "🚨"));; st_stop
      else mret ());;
     copy ← df_copy df_raw;
     preprocess_data copy)
    (λ e, render (Error (read_failure_message e) None);; st_stop).

(** Lines 66-72: the three filters, combined with [&]. *)
Definition df_filtered (d : DataFrame)
    (selected_colleges selected_years : list value)
    (start_date end_date : value) : exn + DataFrame :=
  colleges ← getitem "College Name" d;
  years ← getitem "Year of Study Cleaned" d;
  dates ← getitem "Registration Date" d;
  from_start ← series_ge dates start_date;
  dates ← getitem "Registration Date" d;
  to_end ← series_le dates end_date;
  mret (getitem_mask
          (mask_and (mask_and (mask_and (isin selected_colleges colleges)
                                        (isin selected_years years))
                              from_start)
                    to_end)
          d).

(** Lines 57-66: the sidebar and what the user selects in it. *)
Definition sidebar (df : nat) : M (list value * list value * value * value) :=
  render (SidebarHeader "Filter Your Data 👇");;
  colleges ← df_getitem df "College Name";
  college_list ← lift (py_sorted (unique (series_dropna colleges)));
  render (Multiselect "Filter by College:" college_list);;
  let selected_colleges := multiselect "Filter by College:" college_list in
  years ← df_getitem df "Year of Study Cleaned";
  year_list ← lift (py_sorted (unique years));
  render (Multiselect "Filter by Year of Study:" year_list);;
  let selected_years := multiselect "Filter by Year of Study:" year_list in
  dates ← df_getitem df "Registration Date";
  let min_date := series_min dates in
  dates ← df_getitem df "Registration Date";
  let max_date := series_max dates in
  selected_date_range ←
    lift (date_input "Filter by Registration Date:" min_date max_date);
  render (DateInput "Filter by Registration Date:" min_date max_date);;
  '(start_date, end_date) ← lift (unpack2 selected_date_range);
  mret (selected_colleges, selected_years, start_date, end_date).

(** Lines 67-76: the filtered frame, and the check that it has rows. *)
Definition filter_frame (df : nat)
    (selection : list value * list value * value * value) : M nat :=
  let '(selected_colleges, selected_years, start_date, end_date) :=
    selection in
  d ← deref df;
  filtered ← lift (df_filtered d selected_colleges selected_years
                               start_date end_date);
  result ← new_frame filtered;
  (if df_empty filtered
   then render (Warning "No data matches the current filter settings.");;
        st_stop
   else mret ());;
  mret result.

(** Lines 79-86: the key metrics. *)
Definition key_metrics (filtered : nat) : M () :=
  render (Markdown "---");;
  render (Header "📈 Key Metrics Overview");;
  d ← deref filtered;
  completed ← lift (dropna ["First Name"; "College Name"; "Gender"] d);
  df_completed ← new_frame completed;
  render (Metric "Total Registrations (Filtered)"
                 (VStr (pretty (length (rows d)))) None);;
  render (Metric "Completed Profiles"
                 (VStr (pretty (length (rows completed)))) None);;
  colleges ← df_getitem df_completed "College Name";
  top ← lift (label0 (mode colleges));
  colleges ← df_getitem df_completed "College Name";
  top_count ← lift (iloc0 (value_counts colleges));
  render (Metric "Top College in Selection" top
                 (Some (pretty top_count.2 +:+ " Registrations")));;
  render (Markdown "---").

(** Lines 42-76: from the uploaded bytes to the filtered frame. *)
Definition filtered_set (bytes : string) : M nat :=
  df ← ingest bytes;
  selection ← sidebar df;
  filter_frame df selection.

(** Lines 33-86.  The four tabs that follow only display the views defined
    below. *)
Definition dashboard : M nat :=
  render (PageConfig "Registration Analysis Dashboard" "wide");;
  render (Title "🎉 Event Registration Dashboard");;
  render (Markdown
    "Upload your registration CSV for an automated, in-depth analysis.");;
  render (FileUploader "Choose a CSV file");;
  match uploaded_file with
  | None =>
      render (Info "Please upload a CSV file to get started." "👈");;
      st_stop
  | Some bytes =>
      filtered ← filtered_set bytes;
      key_metrics filtered;;
      mret filtered
  end.

(** ** The views of the tabs *)

(** [df[c].value_counts().nlargest(10)]. *)
Definition top_counts (c : string) (d : DataFrame)
  : exn + list (value * nat) :=
  col ← getitem c d;
  mret (nlargest 10 (value_counts col)).

(** Line 116. *)
Definition college_counts (df_completed : DataFrame)
  : exn + list (value * nat) :=
  top_counts "College Name" df_completed.

(** Line 133. *)
Definition degree_counts (df_completed : DataFrame)
  : exn + list (value * nat) :=
  top_counts "Degree" df_completed.

(** Lines 142-145. *)
Definition events_exploded (filtered : DataFrame) : exn + DataFrame :=
  events_df ← dropna ["Registered Events"] filtered;
  events ← getitem "Registered Events" events_df;
  events_df ← setitem "Registered Events" (str_split_col events) events_df;
  exploded ← explode "Registered Events" events_df;
  events ← getitem "Registered Events" exploded;
  setitem "Registered Events" (str_strip_col events) exploded.

(** Lines 220-221. *)
Definition college_interest (selected_event : value) (exploded : DataFrame)
  : exn + list (value * nat) :=
  events ← getitem "Registered Events" exploded;
  let event_specific_df :=
    getitem_mask (series_eq events selected_event) exploded in
  top_counts "College Name" event_specific_df.

End script.

(** ** A concrete library, for running the script

    A reader for plain comma-separated text without quoting, the timestamp
    layout [YYYY-MM-DD HH:MM:SS] and plain decimal numerals: each behaves
    as pandas does on these inputs, and refuses the rest.  Cells stay text
    (the reader's type inference is left to [to_numeric]). *)
Module Fixture.

Definition digit (c : ascii) : option Z :=
  let n := nat_of_ascii c in
  if ((48 <=? n) && (n <=? 57))%nat then Some (Z.of_nat (n - 48)) else None.

Fixpoint digits_from (acc : Z) (s : string) : option Z :=
  match s with
  | EmptyString => Some acc
  | String c s' => d ← digit c; digits_from (10 * acc + d) s'
  end.

(** A non-empty run of decimal digits. *)
Definition digits (s : string) : option Z :=
  match s with EmptyString => None | _ => digits_from 0 s end.

Definition leap (y : Z) : bool :=
  ((y mod 4 =? 0) && negb (y mod 100 =? 0)) || (y mod 400 =? 0).

Definition days_in_month (y m : Z) : Z :=
  if m =? 2 then (if leap y then 29 else 28)
  else if (m =? 4) || (m =? 6) || (m =? 9) || (m =? 11) then 30 else 31.

(** Days from 1970-01-01 to the given civil date. *)
Definition days_from_civil (y m d : Z) : Z :=
  let y' := if m <=? 2 then y - 1 else y in
  let era := y' `div` 400 in
  let yoe := y' - era * 400 in
  let doy := (153 * (if 2 <? m then m - 3 else m + 9) + 2) `div` 5 + d - 1 in
  let doe := yoe * 365 + yoe `div` 4 - yoe `div` 100 + doy in
  era * 146097 + doe - 719468.

Definition part (from len : nat) (s : string) : string :=
  String.substring from len s.

Definition iso_timestamp (s : string) : option Z :=
  if bool_decide (String.length s = 19%nat
                  ∧ part 4 1 s = "-" ∧ part 7 1 s = "-" ∧ part 10 1 s = " "
                  ∧ part 13 1 s = ":" ∧ part 16 1 s = ":")
  then
    y ← digits (part 0 4 s); m ← digits (part 5 2 s);
    d ← digits (part 8 2 s); hh ← digits (part 11 2 s);
    mm ← digits (part 14 2 s); ss ← digits (part 17 2 s);
    if (1 <=? m) && (m <=? 12) && (1 <=? d) && (d <=? days_in_month y m)
       && (hh <? 24) && (mm <? 60) && (ss <? 60)
    then Some ((days_from_civil y m d * 86400 + hh * 3600 + mm * 60 + ss)
               * 1000000000)
    else None
  else None.

Fixpoint split_at_dot (s : string) : string * option string :=
  match s with
  | EmptyString => (EmptyString, None)
  | String c s' =>
      if bool_decide (c = "."%char) then (EmptyString, Some s')
      else let '(a, b) := split_at_dot s' in (String c a, b)
  end.

Definition unsigned_decimal (s : string) : option number :=
  match split_at_dot s with
  | (whole, None) => NInt <$> digits whole
  | (whole, Some frac) =>
      w ← digits whole; f ← digits frac;
      let scale := 10 ^ Z.of_nat (String.length frac) in
      Some (NFloat (Qmake (w * scale + f) (Z.to_pos scale)))
  end.

Definition negate (x : number) : number :=
  match x with
  | NInt z => NInt (- z)
  | NFloat q => NFloat (Qopp q)
  | NInf b => NInf (negb b)
  end.

Definition decimal (s : string) : option number :=
  match s with
  | String "-" s' => negate <$> unsigned_decimal s'
  | String "+" s' => unsigned_decimal s'
  | _ => unsigned_decimal s
  end.

(** One line of fields against the header: too many fields and the line
    is skipped, too few and the rest is missing; an empty field is
    missing. *)
Fixpoint fill (header : list string) (fields : list string)
  : gmap string value :=
  match header, fields with
  | c :: header', f :: fields' =>
      <[c := if bool_decide (f = "") then NA else VStr f]>
        (fill header' fields')
  | c :: header', [] => <[c := NA]> (fill header' [])
  | [], _ => ∅
  end.

Definition read_line (header : list string) (line : string)
  : list (gmap string value) :=
  let fields := str_split ","%char line in
  if bool_decide (line = "") then []
  else if bool_decide (length fields ≤ length header)%nat
       then [fill header fields] else [].

Definition plain_read_csv (text : string) : exn + DataFrame :=
  match List.filter (λ l, negb (bool_decide (l = "")))
                    (str_split (ascii_of_nat 10) text) with
  | [] => inl (ReaderError "No columns to parse from file")
  | head :: lines =>
      let header := str_split ","%char head in
      inr (mkDF header (lines ≫= read_line header))
  end.

Definition library : Library := {|
  decode_ignore := id;
  read_csv := plain_read_csv;
  parse_datetime := λ _ v, match v with
                           | VStr s => iso_timestamp s
                           | _ => None
                           end;
  parse_numeric := decimal;
  cast_overflow := λ _, -9223372036854775808;
  sort_values := sort_desc
|}.

(** A session: the file, every option left selected, and the dates the
    user picked. *)
Definition session (file : option string) (picked : list value) : Session := {|
  uploaded_file := file;
  multiselect := λ _ options, options;
  date_input := λ _ _ _, inr picked
|}.

Definition blank : world := mkWorld ∅ [].

Definition lines (l : list string) : string :=
  foldr (λ x acc, x +:+ newline +:+ acc) "" l.

Definition header_line : string :=
  "Created At,Year of Study,College Name,Gender,Degree,First Name,Registered Events,Teams".

(** Six registrations: the second has no readable timestamp, the third
    and the fifth no numeric year, the fourth a fractional year and no
    gender, the sixth no events. *)
Definition sample_file : string := lines [header_line;
  "2024-01-15 10:30:00,2,MIT,F,CS,Ann,A;B; A,T1";
  "not a date,3,MIT,M,EE,Bob,A,T2";
  "2024-01-16 23:59:59,two,CMU,M,EE,Cid,,";
  "2024-01-17 00:00:00,2.5,CMU,,EE,Dee,B,T3";
  "2024-01-17 08:00:00,,CMU,F,EE,Eve,B,T3";
  "2024-01-18 09:00:00,3,MIT,M,ME,Gus,,"].

Definition sample_raw : DataFrame :=
  match plain_read_csv sample_file with
  | inr d => d
  | inl _ => empty_frame
  end.

(** Twelve colleges, the n-th of them with n registrations. *)
Definition colleges_frame : DataFrame :=
  mkDF ["College Name"]
       ((λ n, {[ "College Name" := VStr (pretty n) ]})
          <$> (seq 1 12 ≫= λ n, replicate n n)).

(** Two filtered registrations, neither with a gender. *)
Definition no_profiles : DataFrame :=
  mkDF ["First Name"; "College Name"; "Gender"]
       [ {[ "First Name" := VStr "Dee"; "College Name" := VStr "CMU" ]};
         {[ "First Name" := VStr "Fay"; "College Name" := VStr "MIT" ]} ].

(** A run that so far holds one frame, at reference 0. *)
Definition world_of (d : DataFrame) : world := mkWorld {[0%nat := d]} [].

(** Normalization of the sample, and the frame it leaves. *)
Definition sample_preprocess : outcome nat * world :=
  @preprocess_data library 0 (world_of sample_raw).

Definition sample_normalized : DataFrame :=
  heap sample_preprocess.2 !!! 0%nat.

(** The script on the sample file, every college and year selected, the
    dates from 2024-01-15 to 2024-01-18, up to the filtered frame. *)
Definition sample_session : Session :=
  session (Some sample_file) [VDate 19737; VDate 19740].

Definition sample_run : outcome nat * world :=
  @filtered_set library sample_session sample_file blank.

Definition sample_filtered : DataFrame := heap sample_run.2 !!! 2%nat.



(** A frame without the timestamp column, and one without the year. *)
Definition no_created_at : DataFrame :=
  mkDF ["Year of Study"] [ {[ "Year of Study" := VStr "2" ]} ].

Definition no_year : DataFrame :=
  mkDF ["Created At"]
       [ {[ "Created At" := VStr "2024-01-15 10:30:00" ]};
         {[ "Created At" := VStr "yesterday" ]} ].

(** Ingestion of the sample file. *)
Definition sample_ingest : outcome nat * world :=
  @ingest library sample_file blank.

(** Three normalized registrations, the last one without a college,
    events or a team. *)
Definition registrations : DataFrame :=
  mkDF [ "College Name"; "Year of Study Cleaned"; "Registration Date";
         "First Name"; "Gender"; "Registered Events"; "Teams" ]
       [ {[ "College Name" := VStr "MIT"; "Year of Study Cleaned" := VStr "2";
            "Registration Date" := VDate 19737; "First Name" := VStr "Ann";
            "Gender" := VStr "F"; "Registered Events" := VStr "A; B";
            "Teams" := VStr "T1" ]};
         {[ "College Name" := VStr "CMU"; "Year of Study Cleaned" := VStr "3";
            "Registration Date" := VDate 19738; "First Name" := VStr "Bob";
            "Gender" := VStr "M"; "Registered Events" := VStr "A";
            "Teams" := VStr "T1" ]};
         {[ "Year of Study Cleaned" := VStr "2";
            "Registration Date" := VDate 19737; "First Name" := VStr "Cid";
            "Gender" := VStr "M" ]} ].

(** The registrations of MIT, and the exploded events. *)
Definition mit_registrations : DataFrame :=
  mkDF (columns registrations) (take 1 (rows registrations)).

Definition exploded : DataFrame :=
  match events_exploded registrations with
  | inr d => d
  | inl _ => empty_frame
  end.


(** The session in which nothing is changed in the sidebar. *)
Definition untouched : Session :=
  session None [VDate 19737; VDate 19738].

End Fixture.

(** ** Notions used in the statements *)


Section notions.
Context `{Library}.

(** A raw record whose timestamp and year of study both parse; [created]
    is the raw timestamp column. *)
Definition parses (created : list value) (r : gmap string value) : bool :=
  notna (timestamp_cell created (cell "Created At" r))
  && notna (numeric_cell (cell "Year of Study" r)).

(** [rout] is the Normalized Record of the raw record [rin]: the parsed
    timestamp, its calendar date and the year label are put in place, the
    other fields are those of [rin]. *)
Definition normalizes (created : list value) (rin rout : gmap string value)
  : Prop :=
  ∃ ns x z,
    parse_datetime created (cell "Created At" rin) = Some ns
    ∧ numeric_cell (cell "Year of Study" rin) = VNum x
    ∧ int_of_number x = inr z
    ∧ rout = <["Year of Study Cleaned" := VStr (pretty z)]>
               (<["Registration Date" := VDate (ns `div` ns_per_day)]>
                  (<["Created At" := VTimestamp ns]> rin)).


End notions.

(** A record with its two derived fields present. *)
Definition complete_record (r : gmap string value) : Prop :=
  (∃ days, r !! "Registration Date" = Some (VDate days))
  ∧ (∃ label, r !! "Year of Study Cleaned" = Some (VStr label)).

(** The cell holds one of the chosen texts; the cell holds a date within
    the bounds, both included. *)
Definition text_among (l : list string) (v : value) : Prop :=
  ∃ s, v = VStr s ∧ s ∈ l.

Definition date_within (first last : Z) (v : value) : Prop :=
  ∃ k, v = VDate k ∧ first ≤ k ≤ last.

Global Instance text_among_dec l v : Decision (text_among l v).
Proof.
  refine (match v with
          | VStr s => cast_if (decide (s ∈ l))
          | _ => right _
          end); unfold text_among; first
    [ by eexists | by intros (? & [= <-] & ?) | by intros (? & ? & ?) ].
Defined.

Global Instance date_within_dec first last v :
  Decision (date_within first last v).
Proof.
  refine (match v with
          | VDate k => cast_if (decide (first ≤ k ≤ last))
          | _ => right _
          end); unfold date_within; first
    [ by eexists | by intros (? & [= <-] & ?) | by intros (? & ? & ?) ].
Defined.

(** A record meets a Filter Selection (chosen colleges, chosen year labels,
    first and last date): its college is among the chosen colleges, its
    year label among the chosen labels, and its calendar date within the
    range. *)
Definition in_selection (colleges years : list string) (first last : Z)
    (r : gmap string value) : Prop :=
  text_among colleges (cell "College Name" r)
  ∧ text_among years (cell "Year of Study Cleaned" r)
  ∧ date_within first last (cell "Registration Date" r).

Global Instance in_selection_dec colleges years first last r :
  Decision (in_selection colleges years first last r).
Proof. unfold in_selection. apply _. Defined.

(** A Normalized Record set: the columns the filters read exist and every
    record has its derived fields. *)
Definition normalized (d : DataFrame) : Prop :=
  "College Name" ∈ columns d
  ∧ "Year of Study Cleaned" ∈ columns d
  ∧ "Registration Date" ∈ columns d
  ∧ Forall complete_record (rows d).



(** The column labels after [df[c] = ...]. *)
Definition with_column (c : string) (cols : list string) : list string :=
  if bool_decide (c ∈ cols) then cols else cols ++ [c].

Section steps.
Context `{Library}.

(** The calendar date of a parsed timestamp. *)
Definition date_cell (v : value) : value :=
  match v with
  | VTimestamp ns => VDate (ns `div` ns_per_day)
  | _ => NA
  end.

(** A raw record after lines 16-19, and after line 20; [created] is the
    raw timestamp column. *)
Definition with_date (created : list value) (r : gmap string value)
  : gmap string value :=
  <["Registration Date" :=
      date_cell (timestamp_cell created (cell "Created At" r))]>
    (<["Created At" := timestamp_cell created (cell "Created At" r)]> r).





End steps.

(** The world in which the frame at reference [l] has become [d]. *)
Definition put (l : nat) (d : DataFrame) (w : world) : world :=
  mkWorld (<[l := d]> (heap w)) (screen w).


(** ** Notions and views of the further properties *)

(** What the mask of lines 67-72 holds for a record when the comparisons
    with the two dates are defined. *)
Definition meets (selected_colleges selected_years : list value)
    (start_date end_date : value) (r : gmap string value) : bool :=
  existsb (value_eqb (cell "College Name" r)) selected_colleges
  && existsb (value_eqb (cell "Year of Study Cleaned" r)) selected_years
  && match cell "Registration Date" r, start_date with
     | VDate a, VDate b => b <=? a
     | _, _ => false
     end
  && match cell "Registration Date" r, end_date with
     | VDate a, VDate b => a <=? b
     | _, _ => false
     end.

(** A cell that holds text or nothing. *)
Definition text_or_missing (v : value) : Prop := v = NA ∨ ∃ s, v = VStr s.

(** The options offered for a column: its distinct texts, each once, in
    ascending order. *)
Definition options_of (col : list value) (options : list string) : Prop :=
  Sorted String.le options ∧ NoDup options
  ∧ ∀ s, s ∈ options ↔ VStr s ∈ col.

(** How often a value occurs in a column, as the hash table behind
    [value_counts] compares values. *)
Definition occurrences (v : value) (col : list value) : nat :=
  length (List.filter (value_eqb v) col).

(** [counts] lists the values of [col] with their numbers of occurrences:
    every entry is a value of the column with its number of occurrences,
    every value of the column has an entry, and no value has two. *)
Definition tally (col : list value) (counts : list (value * nat)) : Prop :=
  (∀ p, p ∈ counts → p.1 ∈ col ∧ p.2 = occurrences p.1 col)
  ∧ (∀ x, x ∈ col → ∃ p, p ∈ counts ∧ value_eqb x p.1 = true)
  ∧ NoDup counts.*1
  ∧ (∀ p q, p ∈ counts → q ∈ counts → value_eqb p.1 q.1 = true → p.1 = q.1).

(** [value_counts] lists the counted values by descending count (its
    default [sort=True, ascending=False]). *)
Class CountLaws `{Library} := {
  sort_values_perm : ∀ l, sort_values l ≡ₚ l;
  sort_values_sorted : ∀ l, StronglySorted count_ge (sort_values l)
}.

Section views.
Context `{Library}.

(** [df[c].value_counts().reset_index()]. *)
Definition counts_of (c : string) (d : DataFrame)
  : exn + list (value * nat) :=
  col ← getitem c d;
  mret (value_counts col).

(** Line 122. *)
Definition year_counts (filtered : DataFrame) : exn + list (value * nat) :=
  counts_of "Year of Study Cleaned" filtered.

(** Line 128. *)
Definition gender_counts (df_completed : DataFrame)
  : exn + list (value * nat) :=
  counts_of "Gender" df_completed.

(** Lines 153 and 169. *)
Definition event_counts (exploded : DataFrame) : exn + list (value * nat) :=
  counts_of "Registered Events" exploded.

End views.


Definition as_date (v : value) : option Z :=
  match v with VDate days => Some days | _ => None end.

(** The keys of [df.groupby(c)], with its defaults [sort=True] and
    [dropna=True]: the distinct present values of the column, in ascending
    order.  The script groups by dates and by event names; keys that are
    neither all dates, all text nor all numbers are left in their order of
    first appearance. *)
Definition group_keys (col : list value) : list value :=
  let keys := unique (series_dropna col) in
  match mapM as_date keys with
  | Some days => VDate <$> merge_sort Z.le days
  | None => match py_sorted keys with inr l => l | inl _ => keys end
  end.

(** [df.groupby(c).size()]. *)
Definition groupby_size (c : string) (d : DataFrame)
  : exn + list (value * nat) :=
  col ← getitem c d;
  mret ((λ k, (k, occurrences k col)) <$> group_keys col).

(** Lines 98-99: the registrations of each day. *)
Definition daily_registrations (filtered : DataFrame)
  : exn + list (value * nat) :=
  groupby_size "Registration Date" filtered.

(** [df.groupby(k)[c].nunique()]: for each group, the number of distinct
    present values of [c] among its records. *)
Definition groupby_nunique (k c : string) (d : DataFrame)
  : exn + list (value * nat) :=
  keys ← getitem k d;
  if bool_decide (c ∈ columns d) then
    mret ((λ key,
             (key,
              length (unique (series_dropna
                (cell c <$> List.filter (λ r, value_eqb key (cell k r))
                                        (rows d))))))
            <$> group_keys keys)
  else inl (KeyError ("'Column not found: " +:+ c +:+ "'")).

Section summary.
Context `{Library}.

(** Lines 169-178: the participants and the unique teams of each event.
    The left merge keeps the rows of [total_participants] in their order,
    each with the team count of its event; an event without a group gets
    a missing count, which line 178 turns into 0. *)
Definition event_summary (exploded : DataFrame)
  : exn + list (value * nat * nat) :=
  total_participants ← event_counts exploded;
  unique_teams ← groupby_nunique "Registered Events" "Teams" exploded;
  mret ((λ p : value * nat,
           (p.1, p.2,
               match List.find (λ q, value_eqb p.1 q.1) unique_teams with
               | Some q => q.2
               | None => 0%nat
               end)) <$> (total_participants : list (value * nat))).

End summary.

(** * Properties *)

(** ** Running a computation *)

Ltac run :=
  repeat progress
    (unfold mbind, M_bind, mret, M_ret, raise, st_stop, lift, render,
       deref, assign, new_frame, df_copy, df_getitem, df_setitem,
       df_dropna_inplace, df_set_columns; simpl).

Lemma bind_Ret {A B} (m : M A) (f : A → M B) w b w' :
  (m ≫= f) w = (Ret b, w') →
  ∃ a w1, m w = (Ret a, w1) ∧ f a w1 = (Ret b, w').
Proof.
  unfold mbind, M_bind. destruct (m w) as [[a|e|] w1]; [eauto|done..].
Qed.

Lemma run_returns {A} (run : outcome A * world) a :
  run.1 = Ret a → run = (Ret a, run.2).
Proof. destruct run as [o w]. simpl. by intros ->. Qed.

Lemma lift_Ret {A} (x : exn + A) w a w' :
  lift x w = (Ret a, w') → x = inr a ∧ w' = w.
Proof. destruct x; simpl; unfold raise, mret, M_ret; naive_solver. Qed.

Lemma df_getitem_Ret l c w col w' :
  df_getitem l c w = (Ret col, w') →
  w' = w ∧ getitem c (heap w !!! l) = inr col.
Proof.
  unfold df_getitem, deref. intros (d & w1 & [= <- <-] & Hl)%bind_Ret.
  by apply lift_Ret in Hl as [-> ->].
Qed.

Lemma df_setitem_Ret l c vals w u w' :
  df_setitem l c vals w = (Ret u, w') →
  ∃ d', setitem c vals (heap w !!! l) = inr d'
        ∧ w' = mkWorld (<[l := d']> (heap w)) (screen w).
Proof.
  unfold df_setitem, deref. intros (d & w1 & [= <- <-] & Hl)%bind_Ret.
  apply bind_Ret in Hl as (d' & w2 & [Hs ->]%lift_Ret & Ha).
  exists d'. split; [done|]. unfold assign in Ha. by injection Ha as <-.
Qed.

Lemma df_dropna_Ret l cs w u w' :
  df_dropna_inplace l cs w = (Ret u, w') →
  ∃ d', dropna cs (heap w !!! l) = inr d'
        ∧ w' = mkWorld (<[l := d']> (heap w)) (screen w).
Proof.
  unfold df_dropna_inplace, deref.
  intros (d & w1 & [= <- <-] & Hl)%bind_Ret.
  apply bind_Ret in Hl as (d' & w2 & [Hs ->]%lift_Ret & Ha).
  exists d'. split; [done|]. unfold assign in Ha. by injection Ha as <-.
Qed.

(** ** Frames *)

Lemma getitem_inr c d col :
  getitem c d = inr col → c ∈ columns d ∧ col = cell c <$> rows d.
Proof. unfold getitem. case_bool_decide; naive_solver. Qed.

Lemma setitem_inr c vals d d' :
  setitem c vals d = inr d' →
  length vals = length (rows d)
  ∧ columns d ⊆ columns d' ∧ c ∈ columns d'
  ∧ rows d' = zip_with (λ r v, <[c := v]> r) (rows d) vals.
Proof.
  unfold setitem. case_bool_decide; [|done]. intros [= <-]. simpl.
  split_and!; [done| |..|done]; case_bool_decide; set_solver.
Qed.

Lemma dropna_inr cs d d' :
  dropna cs d = inr d' →
  columns d' = columns d
  ∧ rows d' = List.filter (λ r, forallb (λ c, notna (cell c r)) cs) (rows d).
Proof.
  unfold dropna. destruct (list_find _ _) as [[? ?]|]; naive_solver.
Qed.

Lemma traverse_inr {A B} (f : A → exn + B) l ys :
  traverse f l = inr ys → Forall2 (λ x y, f x = inr y) l ys.
Proof.
  revert ys. induction l as [|x l IH]; simpl; intros ys.
  - intros [= <-]. constructor.
  - destruct (f x) as [e|y] eqn:Hx; [done|].
    destruct (traverse f l) as [e|ys']; [done|].
    intros [= <-]. constructor; auto.
Qed.

Lemma cell_insert_eq c v (r : gmap string value) : cell c (<[c := v]> r) = v.
Proof. unfold cell. by rewrite lookup_insert_eq. Qed.

Lemma cell_insert_ne c c' v (r : gmap string value) :
  c ≠ c' → cell c' (<[c := v]> r) = cell c' r.
Proof. intros. unfold cell. by rewrite lookup_insert_ne. Qed.

Lemma zip_insert_fmap c (g : gmap string value → value) l :
  zip_with (λ r v, <[c := v]> r) l (g <$> l) = (λ r, <[c := g r]> r) <$> l.
Proof. induction l as [|x l IH]; csimpl; [done|]. by rewrite IH. Qed.

Lemma zip_insert_diag c (f : value → value) (g : gmap string value → value) l :
  Forall2 (λ rin r, r = <[c := f (g rin)]> rin) l
          (zip_with (λ r v, <[c := v]> r) l (f <$> (g <$> l))).
Proof.
  rewrite <- list_fmap_compose, zip_insert_fmap.
  by apply Forall2_fmap_r, Forall_Forall2_diag, Forall_forall.
Qed.

Lemma zip_insert_Forall2 c (P : gmap string value → value → Prop) l vals :
  Forall2 P l vals →
  Forall2 (λ r r', ∃ v, P r v ∧ r' = <[c := v]> r) l
          (zip_with (λ r v, <[c := v]> r) l vals).
Proof. induction 1; simpl; constructor; eauto. Qed.

Lemma Forall2_filter {A B} (R : A → B → Prop) p q l k :
  Forall2 R l k → (∀ a b, R a b → p a = q b) →
  Forall2 (λ a b, R a b ∧ p a = true) (List.filter p l) (List.filter q k).
Proof.
  intros HF Hpq. induction HF as [|a b l k Hab HF IH]; simpl; [constructor|].
  rewrite <- (Hpq a b Hab). destruct (p a) eqn:Hp; [constructor|]; auto.
Qed.

Lemma filter_filter_and {A} (p q : A → bool) l :
  List.filter q (List.filter p l) = List.filter (λ x, p x && q x) l.
Proof.
  induction l as [|x l IH]; simpl; [done|].
  destruct (p x); simpl; [destruct (q x)|]; congruence.
Qed.

Lemma Forall2_compose {A B C} (R : A → B → Prop) (S : B → C → Prop) l k m :
  Forall2 R l k → Forall2 S k m →
  Forall2 (λ a c, ∃ b, R a b ∧ S b c) l m.
Proof.
  intros HR. revert m. induction HR; inversion 1; subst; constructor; eauto.
Qed.

(** ** Normalization *)

Section normalization.
Context `{Library}.

(** What a returning call of [preprocess_data] has done: it returns the
    reference it was given, and the frame behind it now holds the
    Normalized Records of the raw records that parse, in their order. *)
Lemma preprocess_data_Ret l w l' w' :
  preprocess_data l w = (Ret l', w') →
  let d := heap w !!! l in
  let created := cell "Created At" <$> rows d in
  ∃ out,
    l' = l
    ∧ w' = mkWorld (<[l := out]> (heap w)) (screen w)
    ∧ columns d ⊆ columns out
    ∧ "Registration Date" ∈ columns out
    ∧ "Year of Study Cleaned" ∈ columns out
    ∧ Forall2 (normalizes created)
              (List.filter (parses created) (rows d)) (rows out).
Proof.
  unfold preprocess_data. intros Hrun.
  apply bind_Ret in Hrun as (col1 & ? & [-> Hg1]%df_getitem_Ret & Hrun).
  apply bind_Ret in Hrun as (? & ? & (d1 & Hs1 & ->)%df_setitem_Ret & Hrun).
  apply bind_Ret in Hrun as (? & ? & (d2 & Hd2 & ->)%df_dropna_Ret & Hrun).
  apply bind_Ret in Hrun as (col2 & ? & [-> Hg2]%df_getitem_Ret & Hrun).
  apply bind_Ret in Hrun as (dates & ? & [Hdates ->]%lift_Ret & Hrun).
  apply bind_Ret in Hrun as (? & ? & (d3 & Hs3 & ->)%df_setitem_Ret & Hrun).
  apply bind_Ret in Hrun as (col3 & ? & [-> Hg3]%df_getitem_Ret & Hrun).
  apply bind_Ret in Hrun as (? & ? & (d4 & Hs4 & ->)%df_setitem_Ret & Hrun).
  apply bind_Ret in Hrun as (? & ? & (d5 & Hd5 & ->)%df_dropna_Ret & Hrun).
  apply bind_Ret in Hrun as (col5 & ? & [-> Hg5]%df_getitem_Ret & Hrun).
  apply bind_Ret in Hrun as (ints & ? & [Hints ->]%lift_Ret & Hrun).
  apply bind_Ret in Hrun as (? & ? & (d6 & Hs6 & ->)%df_setitem_Ret & Hrun).
  injection Hrun as <- <-. simpl in *.
  rewrite ?lookup_total_insert_eq, ?insert_insert_eq in *.
  apply getitem_inr in Hg1 as [Hc1 ->].
  set (d := heap w !!! l) in *.
  set (created := cell "Created At" <$> rows d) in *.
  apply setitem_inr in Hs1 as (_ & Hsub1 & _ & Hr1).
  apply dropna_inr in Hd2 as [Hcol2 Hr2].
  apply getitem_inr in Hg2 as [_ ->].
  apply setitem_inr in Hs3 as (_ & Hsub3 & Hin3 & Hr3).
  apply getitem_inr in Hg3 as [_ ->].
  apply setitem_inr in Hs4 as (_ & Hsub4 & _ & Hr4).
  apply dropna_inr in Hd5 as [Hcol5 Hr5].
  apply getitem_inr in Hg5 as [_ ->].
  apply setitem_inr in Hs6 as (_ & Hsub6 & Hin6 & Hr6).
  rewrite Hcol2 in Hsub3. rewrite Hcol5 in Hsub6.
  exists d6. split_and!; [done|done|set_solver|set_solver|done|].
  (* the rows, step by step *)
  assert (Forall2 (λ rin r,
            r = <["Created At" := timestamp_cell created
                                    (cell "Created At" rin)]> rin)
            (rows d) (rows d1)) as F1.
  { rewrite Hr1. apply (zip_insert_diag _ (timestamp_cell created)). }
  apply (Forall2_filter _
           (λ rin, notna (timestamp_cell created (cell "Created At" rin)))
           (λ r, forallb (λ c, notna (cell c r)) ["Created At"]))
    in F1 as F2.
  2:{ intros a b ->. simpl. rewrite cell_insert_eq. by rewrite andb_true_r. }
  rewrite <- Hr2 in F2. clear Hr1 Hr2 F1.
  apply traverse_inr in Hdates. apply Forall2_fmap_l in Hdates.
  apply (zip_insert_Forall2 "Registration Date") in Hdates.
  rewrite <- Hr3 in Hdates. clear Hr3.
  pose proof (Forall2_compose _ _ _ _ _ F2 Hdates) as F3. clear F2 Hdates.
  assert (Forall2 (λ r3 r4, r4 = <["Year of Study Cleaned" :=
            numeric_cell (cell "Year of Study" r3)]> r3) (rows d3) (rows d4))
    as F4.
  { rewrite Hr4. apply (zip_insert_diag _ numeric_cell). }
  pose proof (Forall2_compose _ _ _ _ _ F3 F4) as F5. clear F3 F4 Hr4.
  apply (Forall2_filter _
           (λ rin, notna (numeric_cell (cell "Year of Study" rin)))
           (λ r, forallb (λ c, notna (cell c r)) ["Year of Study Cleaned"]))
    in F5 as F6.
  2:{ intros a b (r3 & [(r2 & [-> _] & v & _ & ->) ->]). simpl.
      rewrite cell_insert_eq, andb_true_r.
      by rewrite !cell_insert_ne by done. }
  rewrite <- Hr5, filter_filter_and in F6. clear F5 Hr5.
  apply traverse_inr in Hints. apply Forall2_fmap_l in Hints.
  unfold astype_str in Hr6.
  assert (Forall2 (λ r5 v, ∃ x z, cell "Year of Study Cleaned" r5 = VNum x
            ∧ int_of_number x = inr z ∧ v = VStr (pretty z))
            (rows d5) ((λ z, VStr (pretty z)) <$> ints)) as Hlabels.
  { apply Forall2_fmap_r. eapply Forall2_impl; [exact Hints|].
    intros r5 z. simpl. destruct (cell _ r5); naive_solver. }
  apply (zip_insert_Forall2 "Year of Study Cleaned") in Hlabels.
  rewrite <- Hr6 in Hlabels. clear Hr6 Hints.
  pose proof (Forall2_compose _ _ _ _ _ F6 Hlabels) as F7.
  eapply Forall2_impl; [exact F7|]. clear.
  intros rin rout (r5 & [(r3 & (r2 & [-> Hts] & v & Hv & ->) & ->) Hnum]
                      & v' & (x & z & Hx & Hz & ->) & ->).
  unfold compose in Hv. rewrite cell_insert_eq in Hx, Hv.
  unfold timestamp_cell in Hts, Hv.
  destruct (parse_datetime created (cell "Created At" rin)) as [ns|] eqn:Hp;
    [|done]. simpl in Hv. injection Hv as <-.
  rewrite !cell_insert_ne in Hx by done.
  exists ns, x, z. split_and!; [done..|].
  rewrite insert_insert_eq. unfold timestamp_cell. by rewrite Hp.
Qed.

End normalization.

(** C1: every record output by [preprocess_data] has a calendar date and a
    cleaned year label.  The records output are the Normalized Records of
    exactly the raw records whose timestamp and year of study both parse,
    in their order: a record that fails either parse is removed, it is not
    kept with a missing field. *)
Theorem normalized_records_complete `{Library} l w l' w' :
  preprocess_data l w = (Ret l', w') →
  let raw := heap w !!! l in
  let out := heap w' !!! l' in
  let created := cell "Created At" <$> rows raw in
  Forall complete_record (rows out)
  ∧ Forall2 (normalizes created)
            (List.filter (parses created) (rows raw)) (rows out)
  ∧ (∀ r, timestamp_cell created (cell "Created At" r) = NA
          ∨ numeric_cell (cell "Year of Study" r) = NA →
          r ∉ List.filter (parses created) (rows raw)).
Proof.
  intros (out & -> & -> & _ & _ & _ & Hrows)%preprocess_data_Ret.
  simpl. rewrite lookup_total_insert_eq. split_and!; [|done|].
  - eapply Forall2_Forall_r; [exact Hrows|]. apply Forall_forall.
    intros rin _ rout (ns & x & z & _ & _ & _ & ->). split.
    + eexists. rewrite lookup_insert_ne by done. apply lookup_insert_eq.
    + eexists. apply lookup_insert_eq.
  - intros r Hna [_ Hp]%list_elem_of_In%filter_In. unfold parses in Hp.
    apply andb_true_iff in Hp as [Ht Hn]. by destruct Hna as [Hna|Hna];
      rewrite Hna in *.
Qed.

Lemma normalized_records_complete_witness :
  Forall complete_record (rows Fixture.sample_normalized)
  ∧ length (rows Fixture.sample_normalized) = 3%nat.
Proof.
  split; [|vm_compute; reflexivity].
  refine (proj1 (normalized_records_complete (H := Fixture.library) 0
                   (Fixture.world_of Fixture.sample_raw) 0
                   Fixture.sample_preprocess.2 _)).
  apply (run_returns Fixture.sample_preprocess). vm_compute; reflexivity.
Defined.





(** ** Effects of [preprocess_data] *)











(** ** The filters *)

Lemma select_rows_fmap {A} (f : A → bool) l :
  select_rows (f <$> l) l = List.filter f l.
Proof. induction l as [|x l IH]; csimpl; [done|]. by rewrite IH. Qed.

Lemma mask_and_fmap {A} (f g : A → bool) (l : list A) :
  mask_and (f <$> l) (g <$> l) = (λ x, f x && g x) <$> l.
Proof.
  unfold mask_and. induction l as [|x l IH]; csimpl; [done|]. by rewrite IH.
Qed.

Lemma filter_bool_Prop {A} (f : A → bool) (P : A → Prop)
    `{∀ x, Decision (P x)} l :
  (∀ x, x ∈ l → f x = true ↔ P x) → List.filter f l = filter P l.
Proof.
  induction l as [|x l IH]; intros Hf; [done|]. simpl.
  rewrite filter_cons, IH by (intros; apply Hf; by right).
  specialize (Hf x ltac:(by left)).
  destruct (f x), (decide (P x)) as [HP|HP]; [done| | |done].
  - destruct HP. by apply Hf.
  - by apply Hf in HP.
Qed.

Lemma traverse_total {A B} (f : A → exn + B) (g : A → B) l :
  Forall (λ x, f x = inr (g x)) l → traverse f l = inr (g <$> l).
Proof.
  induction 1 as [|x l Hx _ IH]; csimpl; [done|]. by rewrite Hx, IH.
Qed.

Lemma isin_text l v :
  existsb (value_eqb v) (VStr <$> l) = true ↔ text_among l v.
Proof.
  rewrite existsb_exists. unfold text_among. split.
  - intros (w & (s & -> & Hs)%list_elem_of_In%list_elem_of_fmap & Heq).
    destruct v; simpl in Heq; try done.
    apply bool_decide_eq_true in Heq as ->. eauto.
  - intros (s & -> & Hs). exists (VStr s). split.
    + apply list_elem_of_In, list_elem_of_fmap. eauto.
    + simpl. by apply bool_decide_eq_true.
Qed.

(** C2: on a Normalized Record set, the filtered frame holds exactly the
    records that meet the Filter Selection -- college among the chosen
    colleges, year label among the chosen labels, calendar date from the
    first to the last chosen date, both included -- in their order, under
    the same columns. *)
Theorem df_filtered_is_selection d colleges years first last :
  normalized d →
  df_filtered d (VStr <$> colleges) (VStr <$> years)
              (VDate first) (VDate last)
  = inr (mkDF (columns d)
              (filter (in_selection colleges years first last) (rows d))).
Proof.
  intros (Hc & Hy & Hd & Hrows). unfold df_filtered, getitem.
  rewrite !bool_decide_eq_true_2 by done. simpl.
  unfold series_ge, series_le.
  rewrite (traverse_total
             (λ v, match v, VDate first with
                   | VDate a, VDate b => inr (b <=? a)
                   | _, _ => inl (ordering_error ">=")
                   end)
             (λ v, match v with VDate k => first <=? k | _ => false end)).
  2:{ apply Forall_fmap. eapply Forall_impl; [exact Hrows|].
      intros r [[k Hk] _]. unfold cell. simpl. by rewrite Hk. }
  simpl.
  rewrite (traverse_total
             (λ v, match v, VDate last with
                   | VDate a, VDate b => inr (a <=? b)
                   | _, _ => inl (ordering_error "<=")
                   end)
             (λ v, match v with VDate k => k <=? last | _ => false end)).
  2:{ apply Forall_fmap. eapply Forall_impl; [exact Hrows|].
      intros r [[k Hk] _]. unfold cell. simpl. by rewrite Hk. }
  simpl. unfold mret, exn_ret, getitem_mask, isin. do 2 f_equal.
  rewrite <- !list_fmap_compose, !mask_and_fmap, select_rows_fmap.
  apply filter_bool_Prop. intros r _. unfold compose, in_selection.
  rewrite !andb_true_iff, !isin_text.
  assert ((match cell "Registration Date" r with
           | VDate k => first <=? k | _ => false end = true
           ∧ match cell "Registration Date" r with
             | VDate k => k <=? last | _ => false end = true)
          ↔ date_within first last (cell "Registration Date" r)) as Hdate.
  { unfold date_within. destruct (cell "Registration Date" r) as [| | | |k|];
      (split; [try by intros []|try by intros (? & [=] & _)]).
    - intros [?%Z.leb_le ?%Z.leb_le]. eauto.
    - intros (? & [= <-] & ? & ?). split; by apply Z.leb_le. }
  tauto.
Qed.

Lemma df_filtered_is_selection_witness :
  df_filtered Fixture.sample_normalized
              (VStr <$> ["MIT"; "CMU"]) (VStr <$> ["2"])
              (VDate 19737) (VDate 19737)
  = inr (mkDF (columns Fixture.sample_normalized)
              (filter (in_selection ["MIT"; "CMU"] ["2"] 19737 19737)
                      (rows Fixture.sample_normalized))).
Proof.
  apply df_filtered_is_selection. unfold normalized.
  split_and!;
    [by eapply bool_decide_unpack; vm_compute; reflexivity..|].
  repeat constructor; eexists; vm_compute; reflexivity.
Defined.

(** ** The top-10 views *)

Global Instance count_ge_trans : Transitive count_ge.
Proof. intros a b c. unfold count_ge. lia. Qed.

Lemma insert_desc_perm x l : insert_desc x l ≡ₚ x :: l.
Proof.
  induction l as [|y l IH]; simpl; [done|].
  case_decide; [done|]. rewrite IH. apply Permutation_swap.
Qed.

Lemma insert_desc_sorted x l :
  StronglySorted count_ge l → StronglySorted count_ge (insert_desc x l).
Proof.
  induction 1 as [|y l Hl IH Hy]; simpl; [by repeat constructor|].
  case_decide as Hxy.
  - constructor; [by constructor|]. constructor; [done|].
    eapply Forall_impl; [exact Hy|]. intros z Hz. by trans y.
  - constructor; [done|]. rewrite insert_desc_perm. constructor; [|done].
    unfold count_ge. lia.
Qed.

Lemma sort_desc_sorted l : StronglySorted count_ge (sort_desc l).
Proof.
  induction l as [|x l IH]; simpl; [constructor|].
  by apply insert_desc_sorted.
Qed.

Lemma nlargest_bounded_sorted n s :
  (length (nlargest n s) ≤ n)%nat ∧ StronglySorted count_ge (nlargest n s).
Proof.
  unfold nlargest. split; [rewrite length_take; lia|].
  apply (StronglySorted_app_1_l _ _ (drop n (sort_desc s))).
  rewrite take_drop. apply sort_desc_sorted.
Qed.

Section top.
Context `{Library}.

Lemma top_counts_bounded_sorted c d out :
  top_counts c d = inr out →
  (length out ≤ 10)%nat ∧ StronglySorted count_ge out.
Proof.
  unfold top_counts. destruct (getitem c d) as [e|col]; [done|].
  intros [= <-]. apply nlargest_bounded_sorted.
Qed.

(** C8: each top-N view (top colleges, top degrees, top colleges of one
    event) has at most 10 entries, in descending order of count, and is a
    function of the column it counts: the same column gives the same
    entries in the same order. *)
Theorem top_views_bounded_sorted :
  (∀ d out, college_counts d = inr out →
            (length out ≤ 10)%nat ∧ StronglySorted count_ge out)
  ∧ (∀ d out, degree_counts d = inr out →
              (length out ≤ 10)%nat ∧ StronglySorted count_ge out)
  ∧ (∀ event exploded out, college_interest event exploded = inr out →
              (length out ≤ 10)%nat ∧ StronglySorted count_ge out)
  ∧ (∀ c d1 d2, getitem c d1 = getitem c d2 →
                top_counts c d1 = top_counts c d2).
Proof.
  split_and!.
  - intros d out. apply top_counts_bounded_sorted.
  - intros d out. apply top_counts_bounded_sorted.
  - intros event exploded out. unfold college_interest.
    destruct (getitem _ exploded) as [e|events]; [done|].
    apply top_counts_bounded_sorted.
  - intros c d1 d2 Hcol. unfold top_counts. by rewrite Hcol.
Qed.

End top.

Lemma top_views_bounded_sorted_witness :
  ∃ out, @college_counts Fixture.library Fixture.colleges_frame = inr out
         ∧ (length out ≤ 10)%nat ∧ StronglySorted count_ge out
         ∧ out.*2 = [12; 11; 10; 9; 8; 7; 6; 5; 4; 3]%nat.
Proof.
  eexists. split; [vm_compute; reflexivity|]. split_and!.
  - apply (proj1 (top_views_bounded_sorted (H := Fixture.library))
             Fixture.colleges_frame).
    vm_compute; reflexivity.
  - apply (proj1 (top_views_bounded_sorted (H := Fixture.library))
             Fixture.colleges_frame).
    vm_compute; reflexivity.
  - vm_compute; reflexivity.
Defined.

(** ** The key metrics *)

Lemma dropna_present cs d :
  Forall (λ c, c ∈ columns d) cs →
  dropna cs d
  = inr (mkDF (columns d)
              (List.filter (λ r, forallb (λ c, notna (cell c r)) cs)
                           (rows d))).
Proof.
  intros Hcs. unfold dropna.
  destruct (list_find _ cs) as [[i c]|] eqn:Hfind; [|done].
  apply list_find_Some in Hfind as (Hi & Hc & _).
  rewrite Forall_forall in Hcs. destruct Hc. eapply Hcs, list_elem_of_lookup_2, Hi.
Qed.

Lemma filter_none {A} (p : A → bool) l :
  Forall (λ x, p x = false) l → List.filter p l = [].
Proof. induction 1 as [|x l Hx _ IH]; simpl; [done|]. by rewrite Hx. Qed.

Section metrics.
Context `{Library}.

(** C10: when every filtered record lacks a first name, a college or a
    gender, the completed-profile frame is empty and the key metrics stop
    with an exception: [mode()] is empty, so taking its entry 0 raises
    [KeyError].  The first two metrics are on the page by then; the third
    metric is not rendered, and nothing is shown in its place. *)
Theorem key_metrics_raise_without_profiles filtered w :
  let d := heap w !!! filtered in
  Forall (λ c, c ∈ columns d) ["First Name"; "College Name"; "Gender"] →
  Forall (λ r, cell "First Name" r = NA ∨ cell "College Name" r = NA
               ∨ cell "Gender" r = NA) (rows d) →
  ∃ w', key_metrics filtered w = (Raise (KeyError "0"), w')
        ∧ rows (heap w' !!! fresh (dom (heap w))) = []
        ∧ screen w'
          = (screen w
             ++ [ Markdown "---"; Header "📈 Key Metrics Overview";
                  Metric "Total Registrations (Filtered)"
                         (VStr (pretty (length (rows d)))) None;
                  Metric "Completed Profiles" (VStr "0") None ])%list.
Proof.
  intros d Hcols Hrows. unfold key_metrics.
  unfold mbind, M_bind, render, deref, df_getitem, new_frame. simpl.
  fold d. rewrite (dropna_present _ d Hcols). simpl.
  rewrite filter_none.
  2:{ eapply Forall_impl; [exact Hrows|]. intros r. simpl.
      intros [Hna | [Hna | Hna]]; rewrite Hna; simpl; by rewrite ?andb_false_r. }
  unfold mbind, M_bind, deref. simpl.
  rewrite lookup_total_insert_eq. unfold getitem. simpl.
  rewrite bool_decide_eq_true_2.
  2:{ by apply Forall_cons_1 in Hcols as [_ [? _]%Forall_cons_1]. }
  eexists. split_and!; [reflexivity| |]; simpl.
  - by rewrite lookup_total_insert_eq.
  - by rewrite <- !app_assoc.
Qed.

End metrics.

Lemma key_metrics_raise_without_profiles_witness :
  let run := @key_metrics Fixture.library 0
               (Fixture.world_of Fixture.no_profiles) in
  run.1 = Raise (KeyError "0")
  ∧ screen run.2
    = [ Markdown "---"; Header "📈 Key Metrics Overview";
        Metric "Total Registrations (Filtered)" (VStr "2") None;
        Metric "Completed Profiles" (VStr "0") None ].
Proof.
  destruct (key_metrics_raise_without_profiles (H := Fixture.library) 0
              (Fixture.world_of Fixture.no_profiles))
    as (w' & Hrun & _ & Hscreen).
  - repeat constructor; by eapply bool_decide_unpack; vm_compute.
  - repeat constructor; right; right; reflexivity.
  - intros run. subst run. rewrite Hrun. split; [done|]. simpl.
    rewrite Hscreen. vm_compute. reflexivity.
Defined.

(** ** Reported failures *)

Section reports.
Context `{Library}.

Lemma df_empty_rename f d :
  df_empty (mkDF (f <$> columns d) (rename_row f <$> rows d)) = df_empty d.
Proof. unfold df_empty. simpl. by destruct (columns d), (rows d). Qed.

(** C3: a parsed table with no rows or no columns is reported with
    [st.error] and the run is halted, not crashed; a reader that raises is
    reported with [st.error], the text ending in the reader's own message,
    and the run is halted, not crashed; filters that leave no record are
    reported with [st.warning], not as an error, and the run is halted. *)
Theorem failures_are_reported :
  (∀ bytes w d,
     read_csv (str_replace crlf newline (decode_ignore bytes)) = inr d →
     df_empty d = true →
     ∃ w', ingest bytes w = (Stop, w')
           ∧ screen w' = (screen w ++ [Error empty_message (Some "🚨")])%list)
  ∧ (∀ bytes w e,
       read_csv (str_replace crlf newline (decode_ignore bytes)) = inl e →
       ∃ w', ingest bytes w = (Stop, w')
             ∧ screen w'
               = (screen w ++ [Error (read_failure_message e) None])%list
             ∧ ∃ lead, read_failure_message e = lead +:+ exn_str e)
  ∧ (∀ df w colleges years first last filtered,
       df_filtered (heap w !!! df) colleges years first last = inr filtered →
       df_empty filtered = true →
       ∃ w', filter_frame df (colleges, years, first, last) w = (Stop, w')
             ∧ screen w'
               = (screen w
                  ++ [Warning "No data matches the current filter settings."])%list).
Proof.
  split_and!.
  - intros bytes w d Hread Hempty. unfold ingest, try_except.
    unfold mbind, M_bind, lift, df_set_columns, deref, assign, new_frame,
      render, st_stop. rewrite Hread. simpl.
    rewrite !lookup_total_insert_eq, df_empty_rename, Hempty. simpl.
    eexists. split; reflexivity.
  - intros bytes w e Hread. unfold ingest, try_except.
    unfold mbind, M_bind, lift, render, st_stop. rewrite Hread. simpl.
    eexists. split_and!; [reflexivity..|].
    exists ("⚠️ Could not read the CSV file. Try re-saving it as UTF-8 format."
            +:+ newline +:+ newline +:+ "Error details: ").
    reflexivity.
  - intros df w colleges years first last filtered Hfilter Hempty.
    unfold filter_frame. unfold mbind, M_bind, lift, deref, new_frame,
      render, st_stop. simpl. rewrite Hfilter. simpl. rewrite Hempty. simpl.
    eexists. split; reflexivity.
Qed.

End reports.

Lemma failures_are_reported_witness :
  (let run := @ingest Fixture.library
                (Fixture.lines [Fixture.header_line]) Fixture.blank in
   run.1 = Stop ∧ screen run.2 = [Error empty_message (Some "🚨")])
  ∧ (let run := @ingest Fixture.library "" Fixture.blank in
     run.1 = Stop
     ∧ screen run.2
       = [Error (read_failure_message
                   (ReaderError "No columns to parse from file")) None])
  ∧ (let run := filter_frame 0 ([], [VStr "2"], VDate 19737, VDate 19740)
                             (Fixture.world_of Fixture.sample_normalized) in
     run.1 = Stop
     ∧ screen run.2
       = [Warning "No data matches the current filter settings."]).
Proof.
  pose proof (failures_are_reported (H := Fixture.library))
    as (Hempty & Hraise & Hnone).
  split_and!.
  - destruct (Hempty (Fixture.lines [Fixture.header_line]) Fixture.blank
                (mkDF (str_split "," Fixture.header_line) [])
                ltac:(vm_compute; reflexivity) ltac:(reflexivity))
      as (w' & Hrun & Hscreen).
    cbv zeta. rewrite Hrun. split; [reflexivity|exact Hscreen].
  - destruct (Hraise "" Fixture.blank
                (ReaderError "No columns to parse from file")
                ltac:(vm_compute; reflexivity)) as (w' & Hrun & Hscreen & _).
    cbv zeta. rewrite Hrun. split; [reflexivity|exact Hscreen].
  - destruct (Hnone 0%nat (Fixture.world_of Fixture.sample_normalized)
                [] [VStr "2"] (VDate 19737) (VDate 19740)
                (mkDF (columns Fixture.sample_normalized) [])
                ltac:(vm_compute; reflexivity) ltac:(vm_compute; reflexivity))
      as (w' & Hrun & Hscreen).
    cbv zeta. rewrite Hrun. split; [reflexivity|exact Hscreen].
Defined.

(** ** A date range with one endpoint *)

Section one_date.
Context `{Library} `{Session}.

(** C4 does not hold of the code: when the date widget returns a tuple
    with a single date, the unpacking at line 66 raises [ValueError]; the
    filters are not applied and no frame is produced. *)
Theorem sidebar_raises_on_single_date df w college_list year_list v :
  let d := heap w !!! df in
  let dates := cell "Registration Date" <$> rows d in
  Forall (λ c, c ∈ columns d)
         ["College Name"; "Year of Study Cleaned"; "Registration Date"] →
  py_sorted (unique (series_dropna (cell "College Name" <$> rows d)))
  = inr college_list →
  py_sorted (unique (cell "Year of Study Cleaned" <$> rows d))
  = inr year_list →
  date_input "Filter by Registration Date:"
             (series_min dates) (series_max dates) = inr [v] →
  ∃ w', sidebar df w
        = (Raise (ValueError
                    "not enough values to unpack (expected 2, got 1)"), w')
        ∧ heap w' = heap w.
Proof.
  intros d dates Hcols Hcs Hys Hpick.
  rewrite !Forall_cons in Hcols. destruct Hcols as (Hc & Hy & Hd & _).
  assert (∀ c, c ∈ columns d → getitem c d = inr (cell c <$> rows d)) as Hget.
  { intros c Hin. unfold getitem. by rewrite bool_decide_eq_true_2. }
  unfold sidebar. run. fold d. rewrite (Hget _ Hc). run. rewrite Hcs. run.
  fold d. rewrite (Hget _ Hy). run. rewrite Hys. run.
  fold d. rewrite (Hget _ Hd). run. fold d. rewrite (Hget _ Hd). run.
  fold dates. rewrite Hpick. run.
  eexists. split; reflexivity.
Qed.

End one_date.

Lemma sidebar_raises_on_single_date_witness :
  (@sidebar (Fixture.session None [VDate 19737]) 0
            (Fixture.world_of Fixture.sample_normalized)).1
  = Raise (ValueError "not enough values to unpack (expected 2, got 1)").
Proof.
  destruct (sidebar_raises_on_single_date
              (H0 := Fixture.session None [VDate 19737]) 0
              (Fixture.world_of Fixture.sample_normalized)
              [VStr "CMU"; VStr "MIT"] [VStr "2"; VStr "3"] (VDate 19737))
    as (w' & -> & _); [|vm_compute; reflexivity..|reflexivity|reflexivity].
  repeat (apply Forall_cons; split;
            [by eapply bool_decide_unpack; vm_compute|]).
  apply Forall_nil_2.
Defined.

(** The whole script on the sample file, the user having picked one
    date: the run ends in the [ValueError], after the sidebar widgets and
    before any metric. *)
Lemma dashboard_single_date :
  (@dashboard Fixture.library
     (Fixture.session (Some Fixture.sample_file) [VDate 19737])
     Fixture.blank).1
  = Raise (ValueError "not enough values to unpack (expected 2, got 1)").
Proof. vm_compute. reflexivity. Qed.

(** ** Event explosion *)



Lemma try_except_Ret {A} (body : M A) handler w a w' :
  (∀ e w1, (handler e w1).1 = Stop) →
  try_except body handler w = (Ret a, w') → body w = (Ret a, w').
Proof.
  intros Hh. unfold try_except. destruct (body w) as [[b|e|] w1]; try done.
  intros Heq. specialize (Hh e w1). by rewrite Heq in Hh.
Qed.


Section explosion.
Context `{Library} `{Session}.

Lemma sidebar_heap df w selection w' :
  sidebar df w = (Ret selection, w') → heap w' = heap w.
Proof.
  unfold sidebar. intros Hrun.
  repeat (apply bind_Ret in Hrun as (? & ? & Hstep & Hrun);
          first [ apply df_getitem_Ret in Hstep as [-> _]
                | apply lift_Ret in Hstep as [_ ->]
                | unfold render in Hstep; injection Hstep as _ <- ]).
  match type of Hrun with context [let '(_, _) := ?p in _] => destruct p end.
  by injection Hrun as _ <-.
Qed.

Lemma Forall2_elem_of_r {A B} (R : A → B → Prop) l k y :
  Forall2 R l k → y ∈ k → ∃ x, x ∈ l ∧ R x y.
Proof.
  induction 1 as [|a b l k Hab _ IH]; [by intros ?%elem_of_nil|].
  intros [->|Hy]%elem_of_cons.
  - exists a. split; [left|done].
  - destruct (IH Hy) as (x & ? & ?). exists x. split; [by right|done].
Qed.



End explosion.






(** ** The script on examples *)

(** The events of a frame, one per exploded entry. *)
Lemma exploded_event_names :
  (λ field,
     match events_exploded
             (mkDF ["Registered Events"] [ {[ "Registered Events" := field ]} ])
     with
     | inr d => cell "Registered Events" <$> rows d
     | inl _ => []
     end) <$> [VStr "A;B; A"; NA; VStr " "; VStr "A;"; VStr ""]
  = [ [VStr "A"; VStr "B"; VStr "A"];
      [];
      [VStr ""];
      [VStr "A"; VStr ""];
      [VStr ""] ].
Proof. vm_compute. reflexivity. Qed.

(** The whole script on the sample file, with every college and year left
    selected and the dates from 2024-01-15 to 2024-01-18: three records
    are normalized and pass the filters, two of them have a completed
    profile, and the run reaches the end of the key metrics. *)
Lemma dashboard_on_sample :
  let run := @dashboard Fixture.library Fixture.sample_session Fixture.blank in
  run.1 = Ret 2%nat
  ∧ screen run.2
    = [ PageConfig "Registration Analysis Dashboard" "wide";
        Title "🎉 Event Registration Dashboard";
        Markdown
          "Upload your registration CSV for an automated, in-depth analysis.";
        FileUploader "Choose a CSV file";
        SidebarHeader "Filter Your Data 👇";
        Multiselect "Filter by College:" [VStr "CMU"; VStr "MIT"];
        Multiselect "Filter by Year of Study:" [VStr "2"; VStr "3"];
        DateInput "Filter by Registration Date:" (VDate 19737) (VDate 19740);
        Markdown "---";
        Header "📈 Key Metrics Overview";
        Metric "Total Registrations (Filtered)" (VStr "3") None;
        Metric "Completed Profiles" (VStr "2") None;
        Metric "Top College in Selection" (VStr "MIT")
               (Some "2 Registrations");
        Markdown "---" ].
Proof. vm_compute. split; reflexivity. Qed.

(** * Further properties of the script *)

(** ** Ingestion *)




Section ingestion.
Context `{Library}.




(** X2: line 52 normalizes a copy.  When ingestion returns, the frame it
    returns is a new object, the parsed frame (under its cleaned column
    names) is still there as it was parsed, no earlier object has changed,
    and the returned frame holds the Normalized Records of the parsed
    records that parse. *)
Theorem ingest_keeps_parsed_frame bytes w df w' :
  ingest bytes w = (Ret df, w') →
  ∃ parsed,
    read_csv (str_replace crlf newline (decode_ignore bytes)) = inr parsed
    ∧ df_empty parsed = false
    ∧ let df_raw := fresh (dom (heap w)) in
      let raw := mkDF (str_replace bom "" <$> columns parsed)
                      (rename_row (str_replace bom "") <$> rows parsed) in
      let created := cell "Created At" <$> rows raw in
      (df ≠ df_raw) ∧ (df_raw ∉ dom (heap w)) ∧ (df ∉ dom (heap w))
      ∧ heap w' !!! df_raw = raw
      ∧ (∀ l, l ∈ dom (heap w) → heap w' !! l = heap w !! l)
      ∧ Forall2 (normalizes created)
                (List.filter (parses created) (rows raw))
                (rows (heap w' !!! df)).
Proof.
  intros Hrun%try_except_Ret; [|done].
  apply bind_Ret in Hrun as (parsed & ? & [Hread ->]%lift_Ret & Hrun).
  apply bind_Ret in Hrun as (df_raw & w1 & [= <- <-] & Hrun).
  apply bind_Ret in Hrun as (? & w2 & [= <-] & Hrun).
  apply bind_Ret in Hrun as (raw & ? & [= <- <-] & Hrun).
  apply bind_Ret in Hrun as (? & w3 & Hcheck & Hrun).
  apply bind_Ret in Hrun as (copy & w4 & Hcopy & Hrun).
  subst w2. simpl in Hcheck.
  rewrite !lookup_total_insert_eq, insert_insert_eq in Hcheck.
  rewrite df_empty_rename in Hcheck.
  destruct (df_empty parsed) eqn:Hempty; [done|]. injection Hcheck as _ <-.
  unfold df_copy, deref, new_frame, mbind, M_bind in Hcopy. simpl in Hcopy.
  rewrite !lookup_total_insert_eq in Hcopy.
  injection Hcopy as <- <-.
  apply preprocess_data_Ret in Hrun as (out & -> & -> & _ & _ & _ & Hrows).
  simpl in *. rewrite !lookup_total_insert_eq, ?insert_insert_eq in *.
  simpl in Hrows.
  set (df_raw := fresh (dom (heap w))) in *.
  set (raw := mkDF (str_replace bom "" <$> columns parsed)
                   (rename_row (str_replace bom "") <$> rows parsed)) in *.
  set (copy := fresh (dom (<[df_raw := raw]> (heap w)))) in *.
  assert (df_raw ∉ dom (heap w)) as Hraw by apply is_fresh.
  assert (copy ∉ dom (<[df_raw := raw]> (heap w))) as Hcopy by apply is_fresh.
  rewrite dom_insert_L in Hcopy.
  assert (copy ≠ df_raw) as Hne by set_solver.
  exists parsed. split_and!; [done|done|done|done|set_solver| | |done].
  - rewrite lookup_total_insert_ne by done. apply lookup_total_insert_eq.
  - intros l Hl. rewrite !lookup_insert_ne by set_solver. done.
Qed.

End ingestion.

Lemma ingest_keeps_parsed_frame_witness :
  ∃ parsed,
    @read_csv Fixture.library
      (str_replace crlf newline
         (@decode_ignore Fixture.library Fixture.sample_file)) = inr parsed
    ∧ heap Fixture.sample_ingest.2 !!! 0%nat
      = mkDF (str_replace bom "" <$> columns parsed)
             (rename_row (str_replace bom "") <$> rows parsed)
    ∧ Fixture.sample_ingest.1 = Ret 1%nat.
Proof.
  destruct (ingest_keeps_parsed_frame (H := Fixture.library)
              Fixture.sample_file Fixture.blank 1 Fixture.sample_ingest.2)
    as (parsed & Hread & _ & _ & _ & _ & Hraw & _).
  { apply (run_returns Fixture.sample_ingest). vm_compute; reflexivity. }
  exists parsed. split_and!; [exact Hread|exact Hraw|vm_compute; reflexivity].
Defined.

(** ** What [preprocess_data] does, step by step *)

Lemma filter_fmap_comm {A B} (p : B → bool) (f : A → B) l :
  List.filter p (f <$> l) = f <$> List.filter (λ x, p (f x)) l.
Proof.
  induction l as [|x l IH]; csimpl; [done|].
  destruct (p (f x)); csimpl; by rewrite IH.
Qed.

Lemma zip_with_fmap_fmap {A B C D} (h : B → C → D) (f : A → B) (g : A → C) l :
  zip_with h (f <$> l) (g <$> l) = (λ x, h (f x) (g x)) <$> l.
Proof. induction l as [|x l IH]; csimpl; [done|]. by rewrite IH. Qed.

Lemma traverse_fmap {A B C} (f : B → exn + C) (g : A → B) l :
  traverse f (g <$> l) = traverse (λ x, f (g x)) l.
Proof. induction l as [|x l IH]; csimpl; [done|]. by rewrite IH. Qed.


Lemma fmap_ext_all {A B} (f g : A → B) (l : list A) :
  (∀ x, f x = g x) → f <$> l = g <$> l.
Proof.
  intros Hfg. induction l as [|x l IH]; csimpl; [done|]. by rewrite Hfg, IH.
Qed.

Lemma filter_ext_all {A} (p q : A → bool) l :
  (∀ x, p x = q x) → List.filter p l = List.filter q l.
Proof.
  intros Hpq. induction l as [|x l IH]; simpl; [done|]. by rewrite Hpq, IH.
Qed.

Lemma getitem_present c d :
  c ∈ columns d → getitem c d = inr (cell c <$> rows d).
Proof. intros. unfold getitem. by rewrite bool_decide_eq_true_2. Qed.

Lemma getitem_absent c d :
  c ∉ columns d → getitem c d = inl (KeyError (quoted c)).
Proof. intros. unfold getitem. by rewrite bool_decide_eq_false_2. Qed.

Lemma bind_run {A B} (m : M A) (f : A → M B) w a w1 :
  m w = (Ret a, w1) → (m ≫= f) w = f a w1.
Proof. unfold mbind, M_bind. by intros ->. Qed.

Lemma bind_raise {A B} (m : M A) (f : A → M B) w e w1 :
  m w = (Raise e, w1) → (m ≫= f) w = (Raise e, w1).
Proof. unfold mbind, M_bind. by intros ->. Qed.

Lemma lift_run {A} (x : exn + A) a w : x = inr a → lift x w = (Ret a, w).
Proof. by intros ->. Qed.


Lemma df_getitem_run l c w col :
  getitem c (heap w !!! l) = inr col → df_getitem l c w = (Ret col, w).
Proof. intros Hc. unfold df_getitem, deref. run. by rewrite Hc. Qed.

Lemma df_getitem_raise l c w e :
  getitem c (heap w !!! l) = inl e → df_getitem l c w = (Raise e, w).
Proof. intros Hc. unfold df_getitem, deref. run. by rewrite Hc. Qed.

Lemma df_setitem_run l c vals w d' :
  setitem c vals (heap w !!! l) = inr d' →
  df_setitem l c vals w = (Ret (), put l d' w).
Proof. intros Hc. unfold df_setitem, deref. run. by rewrite Hc. Qed.

Lemma df_dropna_run l cs w d' :
  dropna cs (heap w !!! l) = inr d' →
  df_dropna_inplace l cs w = (Ret (), put l d' w).
Proof. intros Hc. unfold df_dropna_inplace, deref. run. by rewrite Hc. Qed.

Lemma heap_put l d w : heap (put l d w) !!! l = d.
Proof. unfold put. simpl. apply lookup_total_insert_eq. Qed.

Lemma put_put l d d' w : put l d' (put l d w) = put l d' w.
Proof. unfold put. simpl. by rewrite insert_insert_eq. Qed.

Lemma setitem_fits c vals d :
  length vals = length (rows d) →
  setitem c vals d
  = inr (mkDF (with_column c (columns d))
              (zip_with (λ r v, <[c := v]> r) (rows d) vals)).
Proof. intros. unfold setitem. by rewrite bool_decide_eq_true_2. Qed.

Lemma with_column_elem_of c c' cols :
  c' ∈ with_column c cols ↔ c' = c ∨ c' ∈ cols.
Proof.
  unfold with_column. case_bool_decide.
  - split; [auto|]. by intros [->|?].
  - rewrite elem_of_app, list_elem_of_singleton. tauto.
Qed.

Section steps.
Context `{Library}.


(** X3: lines 16-20 on a frame that lacks a column.  Without [Created At]
    the first line raises [KeyError] and nothing has changed.  With it but
    without [Year of Study], line 20 raises [KeyError] after lines 16-19
    have already changed the frame behind the argument: the records whose
    timestamp does not parse are gone and the date column is there. *)
Theorem preprocess_data_missing_column l w :
  let d := heap w !!! l in
  let created := cell "Created At" <$> rows d in
  ("Created At" ∉ columns d →
   preprocess_data l w = (Raise (KeyError "'Created At'"), w))
  ∧ ("Created At" ∈ columns d → "Year of Study" ∉ columns d →
     preprocess_data l w
     = (Raise (KeyError "'Year of Study'"),
        put l (mkDF (with_column "Registration Date" (columns d))
                    (with_date created
                       <$> List.filter
                             (λ r, notna (timestamp_cell created
                                            (cell "Created At" r)))
                             (rows d))) w)).
Proof.
  intros d created. split.
  { intros Hca. unfold preprocess_data.
    by erewrite bind_raise; [|by apply df_getitem_raise, getitem_absent]. }
  intros Hca Hys. unfold preprocess_data.
  set (T := λ r, timestamp_cell created (cell "Created At" r)).
  set (f1 := λ r : gmap string value, <["Created At" := T r]> r).
  set (K1 := List.filter (λ r, notna (T r)) (rows d)).
  erewrite bind_run; [|by apply df_getitem_run, getitem_present].
  erewrite bind_run.
  2:{ apply df_setitem_run, setitem_fits. fold d.
      unfold to_datetime. by rewrite !length_fmap. }
  fold d created.
  replace (with_column "Created At" (columns d)) with (columns d)
    by (unfold with_column; by rewrite bool_decide_eq_true_2).
  replace (zip_with (λ r v, <["Created At" := v]> r) (rows d)
                    (to_datetime created)) with (f1 <$> rows d)
    by (unfold to_datetime, created;
        by rewrite <- list_fmap_compose, zip_insert_fmap).
  erewrite bind_run.
  2:{ apply df_dropna_run. rewrite heap_put. apply dropna_present.
      by repeat constructor. }
  rewrite put_put. cbn [columns rows].
  replace (List.filter (λ r, forallb (λ c, notna (cell c r)) ["Created At"])
                       (f1 <$> rows d)) with (f1 <$> K1).
  2:{ rewrite filter_fmap_comm. f_equal. apply filter_ext_all. intros r.
      unfold f1. simpl. by rewrite cell_insert_eq, andb_true_r. }
  erewrite bind_run;
    [|by apply df_getitem_run; rewrite heap_put; apply getitem_present].
  cbn [rows]. rewrite <- list_fmap_compose.
  erewrite bind_run.
  2:{ apply lift_run. unfold dt_date. rewrite traverse_fmap.
      apply (traverse_total _ (λ r, date_cell (T r))), Forall_forall.
      intros r _. unfold compose, f1. rewrite cell_insert_eq.
      unfold T, timestamp_cell. by destruct (parse_datetime _ _). }
  erewrite bind_run.
  2:{ apply df_setitem_run. rewrite heap_put. apply setitem_fits.
      cbn [rows]. by rewrite !length_fmap. }
  rewrite put_put. cbn [columns rows]. rewrite zip_with_fmap_fmap.
  change (λ x, <["Registration Date" := date_cell (T x)]> (f1 x))
    with (with_date created).
  erewrite bind_raise; [done|].
  apply df_getitem_raise. rewrite heap_put. apply getitem_absent.
  cbn [columns]. rewrite with_column_elem_of. by intros [?|?].
Qed.






End steps.


Lemma preprocess_data_missing_column_witness :
  (@preprocess_data Fixture.library 0 (Fixture.world_of Fixture.no_created_at)
   = (Raise (KeyError "'Created At'"), Fixture.world_of Fixture.no_created_at))
  ∧ (let run := @preprocess_data Fixture.library 0
                  (Fixture.world_of Fixture.no_year) in
     run.1 = Raise (KeyError "'Year of Study'")
     ∧ columns (heap run.2 !!! 0%nat) = ["Created At"; "Registration Date"]
     ∧ length (rows (heap run.2 !!! 0%nat)) = 1%nat).
Proof.
  split.
  - apply (proj1 (preprocess_data_missing_column (H := Fixture.library) 0
                    (Fixture.world_of Fixture.no_created_at))).
    by eapply bool_decide_unpack; vm_compute.
  - cbv zeta.
    rewrite (proj2 (preprocess_data_missing_column (H := Fixture.library) 0
                      (Fixture.world_of Fixture.no_year)));
      [|by eapply bool_decide_unpack; vm_compute..].
    split_and!; [done|vm_compute; reflexivity..].
Defined.

(** ** The filters on any frame *)

Lemma select_rows_sublist {A} mask (l : list A) :
  select_rows mask l `sublist_of` l.
Proof.
  revert mask. induction l as [|x l IH]; intros [|[] mask]; simpl;
    try apply sublist_nil_l.
  - by apply sublist_skip.
  - by apply sublist_cons.
Qed.

Lemma traverse_inr_fmap {A B} (f : A → exn + B) (g : A → B) l ys :
  (∀ x y, f x = inr y → y = g x) → traverse f l = inr ys → ys = g <$> l.
Proof.
  intros Hg Hys%traverse_inr.
  induction Hys as [|x y l ys Hxy _ IH]; csimpl; [done|].
  by rewrite (Hg x y Hxy), IH.
Qed.

Lemma df_filtered_inr d colleges years first last out :
  df_filtered d colleges years first last = inr out →
  ("College Name" ∈ columns d ∧ "Year of Study Cleaned" ∈ columns d
   ∧ "Registration Date" ∈ columns d)
  ∧ out = mkDF (columns d)
               (List.filter (meets colleges years first last) (rows d)).
Proof.
  unfold df_filtered. intros Hout.
  destruct (getitem "College Name" d) as [|cs] eqn:Hc; [done|].
  destruct (getitem "Year of Study Cleaned" d) as [|ys] eqn:Hy; [done|].
  destruct (getitem "Registration Date" d) as [|ds] eqn:Hd; [done|].
  simpl in Hout.
  destruct (series_ge ds first) as [|from_start] eqn:Hge; [done|].
  simpl in Hout.
  destruct (series_le ds last) as [|to_end] eqn:Hle; [done|].
  simpl in Hout. injection Hout as <-.
  apply getitem_inr in Hc as [Hc ->]. apply getitem_inr in Hy as [Hy ->].
  apply getitem_inr in Hd as [Hd ->]. split; [done|].
  unfold series_ge in Hge. unfold series_le in Hle.
  rewrite traverse_fmap in Hge, Hle.
  apply (traverse_inr_fmap _
           (λ r, match cell "Registration Date" r, first with
                 | VDate a, VDate b => b <=? a
                 | _, _ => false
                 end)) in Hge.
  2:{ intros r y. destruct (cell _ r), first; naive_solver. }
  apply (traverse_inr_fmap _
           (λ r, match cell "Registration Date" r, last with
                 | VDate a, VDate b => a <=? b
                 | _, _ => false
                 end)) in Hle.
  2:{ intros r y. destruct (cell _ r), last; naive_solver. }
  subst. unfold getitem_mask, isin. f_equal.
  rewrite <- !list_fmap_compose, !mask_and_fmap, select_rows_fmap.
  done.
Qed.

Lemma series_ge_meets colleges years first last rs :
  Forall (λ r, meets colleges years first last r = true) rs →
  series_ge (cell "Registration Date" <$> rs) first
  = inr ((λ _, true) <$> rs).
Proof.
  intros Hrows. unfold series_ge. rewrite traverse_fmap.
  apply traverse_total. eapply Forall_impl; [exact Hrows|].
  intros r. unfold meets. rewrite !andb_true_iff. intros [[_ Hge] _].
  destruct (cell "Registration Date" r), first; simpl in *; congruence.
Qed.

Lemma series_le_meets colleges years first last rs :
  Forall (λ r, meets colleges years first last r = true) rs →
  series_le (cell "Registration Date" <$> rs) last
  = inr ((λ _, true) <$> rs).
Proof.
  intros Hrows. unfold series_le. rewrite traverse_fmap.
  apply traverse_total. eapply Forall_impl; [exact Hrows|].
  intros r. unfold meets. rewrite !andb_true_iff. intros [_ Hle].
  destruct (cell "Registration Date" r), last; simpl in *; congruence.
Qed.

Lemma df_filtered_all_meet d colleges years first last :
  "College Name" ∈ columns d → "Year of Study Cleaned" ∈ columns d →
  "Registration Date" ∈ columns d →
  Forall (λ r, meets colleges years first last r = true) (rows d) →
  df_filtered d colleges years first last = inr d.
Proof.
  intros Hc Hy Hd Hrows. unfold df_filtered.
  rewrite !getitem_present by done. simpl.
  rewrite (series_ge_meets _ _ _ _ _ Hrows). simpl.
  rewrite (series_le_meets _ _ _ _ _ Hrows). simpl.
  unfold mret, exn_ret, getitem_mask, isin. f_equal.
  rewrite <- !list_fmap_compose, !mask_and_fmap, select_rows_fmap.
  destruct d as [cols rs]. simpl in *. f_equal.
  induction Hrows as [|r rs Hr _ IH]; simpl; [done|].
  unfold compose. unfold meets in Hr.
  apply andb_true_iff in Hr as [[Hcy _]%andb_true_iff _].
  rewrite Hcy. simpl. by rewrite IH.
Qed.

(** X5: the filters of lines 67-72 only take records away: the filtered
    frame has the columns of the frame it is taken from, and its records
    are records of that frame, in their order, none of them twice. *)
Theorem df_filtered_keeps_order d colleges years first last out :
  df_filtered d colleges years first last = inr out →
  columns out = columns d ∧ rows out `sublist_of` rows d.
Proof.
  intros [_ ->]%df_filtered_inr. split; [done|]. simpl.
  induction (rows d) as [|r rs IH]; simpl; [constructor|].
  destruct (meets _ _ _ _ r); by constructor.
Qed.

(** X6: filtering once is enough: the same selection applied to the
    filtered frame returns that frame. *)
Theorem df_filtered_idempotent d colleges years first last out :
  df_filtered d colleges years first last = inr out →
  df_filtered out colleges years first last = inr out.
Proof.
  intros [(Hc & Hy & Hd) ->]%df_filtered_inr.
  apply df_filtered_all_meet; simpl; try done.
  apply Forall_forall. by intros r [_ ?]%list_elem_of_In%filter_In.
Qed.

Lemma df_empty_false d : df_empty d = false ↔ columns d ≠ [] ∧ rows d ≠ [].
Proof.
  unfold df_empty. destruct (columns d), (rows d); split; try done;
    by intros [? ?].
Qed.

Lemma fresh_unused (w : world) : heap w !! fresh (dom (heap w)) = None.
Proof. apply not_elem_of_dom, is_fresh. Qed.

(** X7: when lines 67-76 let the run go on, the filtered frame is a new
    object and it is not empty; no frame that existed is modified -- the
    normalized frame stays as it was -- and nothing is rendered. *)
Theorem filter_frame_returns_new_frame df selection w fl w' :
  filter_frame df selection w = (Ret fl, w') →
  heap w !! fl = None
  ∧ (∀ l, l ≠ fl → heap w' !! l = heap w !! l)
  ∧ screen w' = screen w
  ∧ rows (heap w' !!! fl) ≠ []
  ∧ columns (heap w' !!! fl) = columns (heap w !!! df).
Proof.
  destruct selection as [[[colleges years] first] last]. unfold filter_frame.
  intros (d & ? & [= <- <-] & Hrun)%bind_Ret.
  apply bind_Ret in Hrun as (filtered & ? & [Hf ->]%lift_Ret & Hrun).
  apply bind_Ret in Hrun as (l & w1 & [= <- <-] & Hrun).
  apply bind_Ret in Hrun as (? & w2 & Hcheck & [= <- <-]).
  destruct (df_empty filtered) eqn:Hempty; [done|]. injection Hcheck as <-.
  simplify_eq/=. rewrite lookup_total_insert_eq.
  apply df_empty_false in Hempty as [_ Hrows].
  apply df_filtered_inr in Hf as [_ ->].
  split_and!; try done.
  - apply fresh_unused.
  - intros l Hl. by rewrite lookup_insert_ne.
Qed.

(** X8: lines 74-76 halt the run exactly when the filters succeed and
    leave no record; the warning is then the last thing on the page. *)
Theorem filter_frame_stops_iff_nothing_matches df colleges years first last w :
  let run := filter_frame df (colleges, years, first, last) w in
  (run.1 = Stop
   ↔ ∃ out, df_filtered (heap w !!! df) colleges years first last = inr out
            ∧ rows out = [])
  ∧ (run.1 = Stop →
     screen run.2
     = (screen w
        ++ [Warning "No data matches the current filter settings."])%list).
Proof.
  unfold filter_frame, mbind, M_bind, deref, new_frame, render, st_stop. simpl.
  destruct (df_filtered _ _ _ _ _) as [e|out] eqn:Hf; simpl.
  { split; [|done]. split; [done|]. by intros (? & [=] & _). }
  destruct (df_empty out) eqn:Hempty; simpl.
  - split; [|done]. split; [|done]. intros _. exists out. split; [done|].
    apply df_filtered_inr in Hf as [(Hc & _) ->]. simpl in *.
    unfold df_empty in Hempty. simpl in Hempty.
    destruct (columns _); [by apply elem_of_nil in Hc|].
    by destruct (List.filter _ _).
  - split; [|done]. split; [done|]. intros (? & [= <-] & Hrows).
    apply df_empty_false in Hempty as [_ ?]. done.
Qed.

(** ** The sidebar *)

Lemma number_eqb_refl x : number_eqb x x = true.
Proof.
  destruct x as [z|q|[]]; simpl; try done.
  - apply Z.eqb_refl.
  - apply Qeq_bool_iff. reflexivity.
Qed.

Lemma value_eqb_refl v : value_eqb v v = true.
Proof.
  destruct v; simpl; try done; try apply Z.eqb_refl;
    try (by apply bool_decide_eq_true). apply number_eqb_refl.
Qed.

Lemma value_eqb_text s w : value_eqb (VStr s) w = true ↔ w = VStr s.
Proof.
  destruct w; simpl; try (split; [done|congruence]).
  rewrite bool_decide_eq_true. split; congruence.
Qed.

Lemma value_eqb_na w : value_eqb NA w = true ↔ w = NA.
Proof. destruct w; simpl; split; congruence. Qed.

Lemma unique_from_elem_of seen col v :
  v ∈ unique_from seen col →
  v ∈ col ∧ existsb (value_eqb v) seen = false.
Proof.
  revert seen. induction col as [|x col IH]; intros seen; simpl.
  { by intros ?%elem_of_nil. }
  destruct (existsb (value_eqb x) seen) eqn:Hx.
  - intros [? ?]%IH. split; [by right|done].
  - intros [->|[? Hv]%IH]%elem_of_cons.
    + split; [by left|done].
    + split; [by right|]. simpl in Hv. by apply orb_false_iff in Hv as [_ ?].
Qed.

Lemma unique_from_NoDup seen col : NoDup (unique_from seen col).
Proof.
  revert seen. induction col as [|x col IH]; intros seen; simpl.
  { constructor. }
  destruct (existsb (value_eqb x) seen); [apply IH|].
  constructor; [|apply IH]. intros [_ Hx]%unique_from_elem_of.
  simpl in Hx. by rewrite value_eqb_refl in Hx.
Qed.

Lemma unique_from_covers seen col x :
  x ∈ col →
  existsb (value_eqb x) seen = true
  ∨ ∃ o, o ∈ unique_from seen col ∧ value_eqb x o = true.
Proof.
  revert seen. induction col as [|y col IH]; intros seen.
  { by intros ?%elem_of_nil. }
  simpl. intros [->|Hx]%elem_of_cons.
  - destruct (existsb (value_eqb y) seen) eqn:Hy; [by left|].
    right. exists y. split; [by left|apply value_eqb_refl].
  - destruct (existsb (value_eqb y) seen) eqn:Hy; [by apply IH|].
    destruct (IH (y :: seen) Hx) as [Hs|(o & Ho & Hxo)].
    + simpl in Hs. apply orb_true_iff in Hs as [Hxy|Hs]; [|by left].
      right. exists y. split; [by left|done].
    + right. exists o. split; [by right|done].
Qed.

Lemma unique_elem_of col v : v ∈ unique col → v ∈ col.
Proof. by intros [? _]%unique_from_elem_of. Qed.

Lemma unique_covers col x :
  x ∈ col → ∃ o, o ∈ unique col ∧ value_eqb x o = true.
Proof. intros Hx. by destruct (unique_from_covers [] col x Hx). Qed.

Lemma text_list l :
  Forall (λ v, ∃ s, v = VStr s) l → ∃ ss, l = VStr <$> ss.
Proof.
  induction 1 as [|v l [s ->] _ [ss ->]]; [by exists []|].
  by exists (s :: ss).
Qed.

Lemma mapM_as_str ss : mapM as_str (VStr <$> ss) = Some ss.
Proof.
  apply mapM_Some. apply Forall2_fmap_l, Forall_Forall2_diag, Forall_forall.
  done.
Qed.

Lemma py_sorted_text ss :
  py_sorted (VStr <$> ss) = inr (VStr <$> merge_sort String.le ss).
Proof. unfold py_sorted. by rewrite mapM_as_str. Qed.

Lemma mapM_as_str_Some l ss : mapM as_str l = Some ss → l = VStr <$> ss.
Proof.
  intros HF%mapM_Some. induction HF as [|v s l ss Hv _ IH]; csimpl; [done|].
  destruct v; simplify_eq/=. done.
Qed.

Lemma mapM_as_num_Some l xs : mapM as_num l = Some xs → l = VNum <$> xs.
Proof.
  intros HF%mapM_Some. induction HF as [|v s l ss Hv _ IH]; csimpl; [done|].
  destruct v; simplify_eq/=. done.
Qed.

Lemma py_sorted_Permutation l l' : py_sorted l = inr l' → l' ≡ₚ l.
Proof.
  unfold py_sorted. destruct (mapM as_str l) as [ss|] eqn:Hs.
  - intros [= <-]. apply mapM_as_str_Some in Hs as ->.
    by rewrite merge_sort_Permutation.
  - destruct (mapM as_num l) as [xs|] eqn:Hn; [|done].
    intros [= <-]. apply mapM_as_num_Some in Hn as ->.
    by rewrite merge_sort_Permutation.
Qed.

Lemma sorted_unique_text l :
  Forall (λ v, ∃ s, v = VStr s) l →
  ∃ ss, py_sorted (unique l) = inr (VStr <$> ss) ∧ options_of l ss.
Proof.
  intros Hl.
  assert (Forall (λ v, ∃ s, v = VStr s) (unique l)) as Hu.
  { apply Forall_forall. intros v Hv%unique_elem_of.
    by apply (proj1 (Forall_forall _ _) Hl). }
  apply text_list in Hu as [us Hus].
  exists (merge_sort String.le us). rewrite Hus, py_sorted_text.
  split; [done|]. split_and!.
  - apply Sorted_merge_sort. apply _.
  - rewrite merge_sort_Permutation. eapply (NoDup_fmap_1 VStr).
    rewrite <- Hus. apply unique_from_NoDup.
  - intros s. rewrite merge_sort_Permutation. split.
    + intros Hs. apply unique_elem_of. rewrite Hus.
      by apply list_elem_of_fmap_2.
    + intros (o & Ho & ->%value_eqb_text)%unique_covers.
      rewrite Hus in Ho. apply list_elem_of_fmap in Ho as (s' & [= ->] & ?).
      done.
Qed.

Lemma series_dropna_elem_of col v : v ∈ series_dropna col ↔ v ∈ col ∧ v ≠ NA.
Proof.
  unfold series_dropna. rewrite list_elem_of_In, filter_In, <- list_elem_of_In.
  destruct v; simpl; split; intros [? ?]; split; done.
Qed.

Lemma college_options col :
  Forall text_or_missing col →
  ∃ ss, py_sorted (unique (series_dropna col)) = inr (VStr <$> ss)
        ∧ options_of col ss.
Proof.
  intros Hcol.
  destruct (sorted_unique_text (series_dropna col)) as (ss & Hs & Ho1 & Ho2 & Ho).
  { apply Forall_forall. intros v [Hv Hna]%series_dropna_elem_of.
    destruct (proj1 (Forall_forall _ _) Hcol v Hv) as [?|?]; done. }
  exists ss. split; [done|]. split_and!; try done.
  intros s. rewrite Ho, series_dropna_elem_of. split; [by intros [? _]|done].
Qed.

Lemma series_min_dates col :
  Forall (λ v, ∃ k, v = VDate k) col → col ≠ [] →
  ∃ a, series_min col = VDate a ∧ VDate a ∈ col
       ∧ Forall (λ v, ∃ k, v = VDate k ∧ a ≤ k) col.
Proof.
  induction 1 as [|v col [k ->] Hcol IH]; [done|]. intros _.
  destruct col as [|v' col'].
  { exists k. simpl. split_and!; [done|by left|].
    repeat constructor. exists k. split; [done|lia]. }
  destruct IH as (a & Ha & Hin & Hall); [done|].
  exists (Z.min k a). split_and!.
  - change (series_min (VDate k :: v' :: col'))
      with (match series_min (v' :: col') with
            | VDate b => VDate (Z.min k b)
            | _ => VDate k
            end).
    by rewrite Ha.
  - destruct (Z.min_spec k a) as [[_ ->]|[_ ->]]; [by left|by right].
  - constructor; [exists k; split; [done|lia]|].
    eapply Forall_impl; [exact Hall|]. intros ? (k' & -> & ?).
    exists k'. split; [done|lia].
Qed.

Lemma series_max_dates col :
  Forall (λ v, ∃ k, v = VDate k) col → col ≠ [] →
  ∃ b, series_max col = VDate b ∧ VDate b ∈ col
       ∧ Forall (λ v, ∃ k, v = VDate k ∧ k ≤ b) col.
Proof.
  induction 1 as [|v col [k ->] Hcol IH]; [done|]. intros _.
  destruct col as [|v' col'].
  { exists k. simpl. split_and!; [done|by left|].
    repeat constructor. exists k. split; [done|lia]. }
  destruct IH as (a & Ha & Hin & Hall); [done|].
  exists (Z.max k a). split_and!.
  - change (series_max (VDate k :: v' :: col'))
      with (match series_max (v' :: col') with
            | VDate b => VDate (Z.max k b)
            | _ => VDate k
            end).
    by rewrite Ha.
  - destruct (Z.max_spec k a) as [[_ ->]|[_ ->]]; [by right|by left].
  - constructor; [exists k; split; [done|lia]|].
    eapply Forall_impl; [exact Hall|]. intros ? (k' & -> & ?).
    exists k'. split; [done|lia].
Qed.

Lemma normalized_years d :
  normalized d →
  Forall (λ v, ∃ s, v = VStr s) (cell "Year of Study Cleaned" <$> rows d).
Proof.
  intros (_ & _ & _ & Hrows). apply Forall_fmap.
  eapply Forall_impl; [exact Hrows|]. intros r [_ [s Hs]].
  exists s. unfold cell. simpl. by rewrite Hs.
Qed.

Lemma normalized_dates d :
  normalized d →
  Forall (λ v, ∃ k, v = VDate k) (cell "Registration Date" <$> rows d).
Proof.
  intros (_ & _ & _ & Hrows). apply Forall_fmap.
  eapply Forall_impl; [exact Hrows|]. intros r [[s Hs] _].
  exists s. unfold cell. simpl. by rewrite Hs.
Qed.

Section sidebar.
Context `{Session}.

Lemma sidebar_run df w a b :
  let d := heap w !!! df in
  let dates := cell "Registration Date" <$> rows d in
  normalized d →
  Forall (λ r, text_or_missing (cell "College Name" r)) (rows d) →
  date_input "Filter by Registration Date:"
             (series_min dates) (series_max dates) = inr [a; b] →
  ∃ colleges years,
    sidebar df w
    = (Ret (multiselect "Filter by College:" (VStr <$> colleges),
            multiselect "Filter by Year of Study:" (VStr <$> years), a, b),
       mkWorld (heap w)
         (screen w
          ++ [ SidebarHeader "Filter Your Data 👇";
               Multiselect "Filter by College:" (VStr <$> colleges);
               Multiselect "Filter by Year of Study:" (VStr <$> years);
               DateInput "Filter by Registration Date:"
                         (series_min dates) (series_max dates) ])%list)
    ∧ options_of (cell "College Name" <$> rows d) colleges
    ∧ options_of (cell "Year of Study Cleaned" <$> rows d) years.
Proof.
  intros d dates Hnorm Htext Hpick.
  destruct (college_options (cell "College Name" <$> rows d))
    as (colleges & Hcs & Hco); [by apply Forall_fmap|].
  destruct (sorted_unique_text (cell "Year of Study Cleaned" <$> rows d))
    as (years & Hys & Hyo); [by apply normalized_years|].
  exists colleges, years.
  destruct Hnorm as (Hc & Hy & Hd & Hrows).
  split_and!; [|done|done].
  unfold sidebar. run. fold d. rewrite (getitem_present _ _ Hc). run.
  rewrite Hcs. run. fold d. rewrite (getitem_present _ _ Hy). run.
  rewrite Hys. run. fold d. rewrite (getitem_present _ _ Hd). run.
  fold d. rewrite (getitem_present _ _ Hd). run. fold dates.
  rewrite Hpick. run. by rewrite <- !app_assoc.
Qed.

Lemma date_bounds d :
  let dates := cell "Registration Date" <$> rows d in
  normalized d → rows d ≠ [] →
  ∃ lo hi, series_min dates = VDate lo ∧ series_max dates = VDate hi
           ∧ VDate lo ∈ dates ∧ VDate hi ∈ dates
           ∧ Forall (date_within lo hi) dates.
Proof.
  intros dates Hnorm Hne.
  assert (Forall (λ v, ∃ k, v = VDate k) dates) as Hdates.
  { by apply normalized_dates. }
  assert (dates ≠ []) as Hne'.
  { unfold dates. by destruct (rows d). }
  destruct (series_min_dates dates Hdates Hne') as (lo & Hlo & Hlo_in & Hge).
  destruct (series_max_dates dates Hdates Hne') as (hi & Hhi & Hhi_in & Hle).
  exists lo, hi. split_and!; try done.
  apply Forall_forall. intros v Hv.
  destruct (proj1 (Forall_forall _ _) Hge v Hv) as (k & -> & ?).
  destruct (proj1 (Forall_forall _ _) Hle _ Hv) as (k' & [= <-] & ?).
  exists k. split; [done|lia].
Qed.

(** X9: what lines 58-66 offer and return on a normalized frame whose
    colleges are text.  The college options are the distinct colleges of
    the records, the year options their distinct year labels, each once
    and in ascending order; the date widget is bounded by the earliest and
    the latest registration date; and the selection returned is what the
    widgets give back.  No frame is touched. *)
Theorem sidebar_offers df w a b :
  let d := heap w !!! df in
  let dates := cell "Registration Date" <$> rows d in
  normalized d →
  Forall (λ r, text_or_missing (cell "College Name" r)) (rows d) →
  date_input "Filter by Registration Date:"
             (series_min dates) (series_max dates) = inr [a; b] →
  ∃ colleges years,
    sidebar df w
    = (Ret (multiselect "Filter by College:" (VStr <$> colleges),
            multiselect "Filter by Year of Study:" (VStr <$> years), a, b),
       mkWorld (heap w)
         (screen w
          ++ [ SidebarHeader "Filter Your Data 👇";
               Multiselect "Filter by College:" (VStr <$> colleges);
               Multiselect "Filter by Year of Study:" (VStr <$> years);
               DateInput "Filter by Registration Date:"
                         (series_min dates) (series_max dates) ])%list)
    ∧ options_of (cell "College Name" <$> rows d) colleges
    ∧ options_of (cell "Year of Study Cleaned" <$> rows d) years
    ∧ (rows d ≠ [] →
       ∃ lo hi, series_min dates = VDate lo ∧ series_max dates = VDate hi
                ∧ VDate lo ∈ dates ∧ VDate hi ∈ dates
                ∧ Forall (date_within lo hi) dates).
Proof.
  intros d dates Hnorm Htext Hpick.
  destruct (sidebar_run df w a b Hnorm Htext Hpick)
    as (colleges & years & Hrun & Hco & Hyo).
  exists colleges, years. split_and!; try done.
  by apply date_bounds.
Qed.

End sidebar.

Lemma series_ge_dates col a :
  Forall (λ v, ∃ k, v = VDate k) col →
  series_ge col (VDate a)
  = inr ((λ v, match v with VDate k => a <=? k | _ => false end) <$> col).
Proof.
  intros Hcol. unfold series_ge. apply traverse_total.
  eapply Forall_impl; [exact Hcol|]. by intros v [k ->].
Qed.

Lemma series_le_dates col b :
  Forall (λ v, ∃ k, v = VDate k) col →
  series_le col (VDate b)
  = inr ((λ v, match v with VDate k => k <=? b | _ => false end) <$> col).
Proof.
  intros Hcol. unfold series_le. apply traverse_total.
  eapply Forall_impl; [exact Hcol|]. by intros v [k ->].
Qed.

Lemma df_filtered_dates d colleges years a b :
  normalized d →
  df_filtered d colleges years (VDate a) (VDate b)
  = inr (mkDF (columns d)
              (List.filter (meets colleges years (VDate a) (VDate b))
                           (rows d))).
Proof.
  intros Hnorm. pose proof (normalized_dates d Hnorm) as Hdates.
  destruct Hnorm as (Hc & Hy & Hd & Hrows). unfold df_filtered.
  rewrite !getitem_present by done. simpl.
  rewrite (series_ge_dates _ _ Hdates). simpl.
  rewrite (series_le_dates _ _ Hdates). simpl.
  unfold mret, exn_ret, getitem_mask, isin. do 2 f_equal.
  rewrite <- !list_fmap_compose, !mask_and_fmap, select_rows_fmap.
  apply filter_ext_all. intros r. unfold compose, meets.
  by destruct (cell "Registration Date" r).
Qed.

Lemma df_filtered_no_rows d colleges years first last :
  "College Name" ∈ columns d → "Year of Study Cleaned" ∈ columns d →
  "Registration Date" ∈ columns d → rows d = [] →
  df_filtered d colleges years first last = inr d.
Proof.
  intros. apply df_filtered_all_meet; try done.
  replace (rows d) with (@nil (gmap string value)). constructor.
Qed.

Section default.
Context `{Session}.

(** X10: with every option left selected and the whole date range, the
    filtered frame is not the whole normalized frame: it holds the records
    that have a college, and only those.  A record without a college
    passes no college filter, the default one included. *)
Theorem default_selection_drops_missing_college df w :
  let d := heap w !!! df in
  let dates := cell "Registration Date" <$> rows d in
  normalized d →
  Forall (λ r, text_or_missing (cell "College Name" r)) (rows d) →
  (∀ label options, multiselect label options = options) →
  date_input "Filter by Registration Date:"
             (series_min dates) (series_max dates)
  = inr [series_min dates; series_max dates] →
  ∃ colleges years w1,
    sidebar df w
    = (Ret (colleges, years, series_min dates, series_max dates), w1)
    ∧ heap w1 = heap w
    ∧ df_filtered d colleges years (series_min dates) (series_max dates)
      = inr (mkDF (columns d)
                  (List.filter (λ r, notna (cell "College Name" r))
                               (rows d))).
Proof.
  intros d dates Hnorm Htext Hall Hpick.
  destruct (sidebar_run df w _ _ Hnorm Htext Hpick)
    as (colleges & years & Hrun & Hco & Hyo).
  rewrite !Hall in Hrun.
  eexists _, _, _. split; [exact Hrun|]. split; [done|].
  destruct (decide (rows d = [])) as [Hrows|Hrows].
  { destruct Hnorm as (Hc & Hy & Hd & _).
    rewrite df_filtered_no_rows by done. rewrite Hrows.
    destruct d; simpl in *; by subst. }
  destruct (date_bounds d Hnorm Hrows) as (lo & hi & Hlo & Hhi & _ & _ & Hin).
  fold dates in Hlo, Hhi, Hin. rewrite Hlo, Hhi, df_filtered_dates by done.
  do 2 f_equal. apply filter_ext_in. intros r Hr%list_elem_of_In.
  unfold meets.
  assert (existsb (value_eqb (cell "Year of Study Cleaned" r))
                  (VStr <$> years) = true) as ->.
  { apply isin_text.
    destruct (proj1 (Forall_forall _ _) (normalized_years d Hnorm)
                (cell "Year of Study Cleaned" r)) as [s Hs].
    { by apply list_elem_of_fmap_2. }
    exists s. split; [done|]. apply Hyo. rewrite <- Hs.
    by apply list_elem_of_fmap_2. }
  destruct (proj1 (Forall_forall _ _) Hin (cell "Registration Date" r))
    as (k & -> & Hlo_k & Hk_hi).
  { by apply list_elem_of_fmap_2. }
  apply Z.leb_le in Hlo_k, Hk_hi. rewrite Hlo_k, Hk_hi, !andb_true_r.
  destruct (proj1 (Forall_forall _ _) Htext r Hr) as [Hna|[s Hs]].
  - rewrite Hna. simpl. apply not_true_is_false.
    intros (s & [=] & _)%isin_text.
  - rewrite Hs. simpl. apply isin_text. exists s. split; [done|].
    apply Hco. rewrite <- Hs. by apply list_elem_of_fmap_2.
Qed.

End default.

(** ** Counting *)

Lemma number_eqb_sym x y : number_eqb x y = number_eqb y x.
Proof.
  destruct x as [a|p|[]], y as [b|q|[]]; simpl; try done.
  - apply Z.eqb_sym.
  - apply eq_true_iff_eq. rewrite !Qeq_bool_iff. split; by symmetry.
Qed.

Lemma number_eqb_trans x y z :
  number_eqb x y = true → number_eqb y z = true → number_eqb x z = true.
Proof.
  destruct x as [a|p|[]], y as [b|q|[]], z as [c|r|[]]; simpl; try done;
    rewrite ?Z.eqb_eq, ?Qeq_bool_iff; intros H1 H2; subst;
    first
      [ done | exact H1 | exact H2
      | etransitivity; [exact H1|exact H2]
      | etransitivity; [exact H1|symmetry; exact H2]
      | etransitivity; [symmetry; exact H1|exact H2]
      | etransitivity; [exact H2|symmetry; exact H1]
      | apply inject_Z_injective;
        etransitivity; [exact H1|symmetry; exact H2] ].
Qed.

Lemma value_eqb_sym v w : value_eqb v w = value_eqb w v.
Proof.
  destruct v, w; simpl; try done; try apply Z.eqb_sym;
    try apply number_eqb_sym;
    apply eq_true_iff_eq; rewrite !bool_decide_eq_true; split; congruence.
Qed.

Lemma value_eqb_trans u v w :
  value_eqb u v = true → value_eqb v w = true → value_eqb u w = true.
Proof.
  destruct u, v, w; simpl; try done;
    rewrite ?bool_decide_eq_true, ?Z.eqb_eq; try congruence.
  apply number_eqb_trans.
Qed.

Section tallies.
Local Open Scope list_scope.

Lemma occurrences_app v l k :
  occurrences v (l ++ k) = (occurrences v l + occurrences v k)%nat.
Proof. unfold occurrences. by rewrite List.filter_app, length_app. Qed.

Lemma occurrences_same v w col :
  value_eqb v w = true → occurrences v col = occurrences w col.
Proof.
  intros Hvw. unfold occurrences. f_equal. apply filter_ext_all. intros x.
  apply eq_true_iff_eq. split; intros Hx.
  - eapply value_eqb_trans; [|exact Hx]. by rewrite value_eqb_sym.
  - by eapply value_eqb_trans.
Qed.

Lemma occurrences_none v col :
  (∀ x, x ∈ col → value_eqb v x = false) → occurrences v col = 0%nat.
Proof.
  intros Hv. unfold occurrences. rewrite filter_none; [done|].
  by apply Forall_forall.
Qed.

Lemma occurrences_pos v col : v ∈ col → (0 < occurrences v col)%nat.
Proof.
  intros (l1 & l2 & ->)%list_elem_of_split. rewrite occurrences_app.
  unfold occurrences at 2. simpl. rewrite value_eqb_refl. simpl. lia.
Qed.

Lemma bump_split v acc :
  (Forall (λ p, value_eqb v p.1 = false) acc ∧ bump v acc = acc ++ [(v, 1%nat)])
  ∨ ∃ l1 w n l2,
      acc = l1 ++ (w, n) :: l2 ∧ value_eqb v w = true
      ∧ bump v acc = l1 ++ (w, S n) :: l2.
Proof.
  induction acc as [|[w n] acc IH]; simpl.
  { left. by split. }
  destruct (value_eqb v w) eqn:Hvw.
  - right. by exists [], w, n, acc.
  - destruct IH as [[Hno ->]|(l1 & w' & n' & l2 & -> & Hw' & ->)].
    + left. split; [by constructor|done].
    + right. by exists ((w, n) :: l1), w', n', l2.
Qed.

Lemma bump_sum v acc :
  sum_list (snd <$> bump v acc) = S (sum_list (snd <$> acc)).
Proof.
  induction acc as [|[w n] acc IH]; simpl; [done|].
  destruct (value_eqb v w); csimpl; [done|]. rewrite IH. lia.
Qed.

Lemma tally_bump col acc v :
  tally col acc → tally (col ++ [v]) (bump v acc).
Proof.
  intros (Hocc & Hcov & Hnd & Hsame).
  assert (∀ x, occurrences x (col ++ [v])
               = (occurrences x col + if value_eqb x v then 1 else 0)%nat)
    as Hsnoc.
  { intros x. rewrite occurrences_app. unfold occurrences at 2. simpl.
    by destruct (value_eqb x v). }
  destruct (bump_split v acc)
    as [[Hno ->]|(l1 & w & n & l2 & -> & Hvw & ->)].
  - assert (∀ p, p ∈ acc → value_eqb v p.1 = false) as Hno'.
    { by apply Forall_forall. }
    split_and!.
    + intros p [Hp|Hp]%elem_of_app;
        [|apply list_elem_of_singleton in Hp as ->].
      * destruct (Hocc p Hp) as [Hin Hn]. split; [apply elem_of_app; by left|].
        rewrite Hsnoc, value_eqb_sym, (Hno' p Hp). lia.
      * simpl. split; [apply elem_of_app; right; by left|].
        rewrite Hsnoc, value_eqb_refl, occurrences_none; [done|].
        intros x (p & Hp & Hxp)%Hcov.
        destruct (value_eqb v x) eqn:Hvx; [|done].
        rewrite <- (Hno' p Hp). symmetry. by eapply value_eqb_trans.
    + intros x [Hx|Hx]%elem_of_app;
        [|apply list_elem_of_singleton in Hx as ->].
      * destruct (Hcov x Hx) as (p & Hp & Hxp). exists p.
        split; [apply elem_of_app; by left|done].
      * exists (v, 1%nat). split; [apply elem_of_app; right; by left|].
        apply value_eqb_refl.
    + rewrite fmap_app. apply NoDup_app. split; [done|]. split.
      * intros k (p & -> & Hp)%list_elem_of_fmap Hk.
        apply list_elem_of_singleton in Hk.
        specialize (Hno' p Hp). by rewrite Hk, value_eqb_refl in Hno'.
      * apply NoDup_singleton.
    + intros p q [Hp|Hp]%elem_of_app [Hq|Hq]%elem_of_app;
        try apply list_elem_of_singleton in Hp as ->;
        try apply list_elem_of_singleton in Hq as ->; simpl.
      * by apply Hsame.
      * rewrite value_eqb_sym, (Hno' p Hp). done.
      * rewrite (Hno' q Hq). done.
      * done.
  - assert ((w, n) ∈ l1 ++ (w, n) :: l2) as Hw.
    { apply elem_of_app. right. by left. }
    assert (∀ p, p ∈ l1 ++ (w, S n) :: l2 →
              ∃ m, (p.1, m) ∈ l1 ++ (w, n) :: l2
                   ∧ p.2 = (m + if value_eqb p.1 w then 1 else 0)%nat)
      as Hback.
    { intros [k m]. rewrite !elem_of_app, !elem_of_cons. simpl.
      intros [Hp|[[= -> ->]|Hp]].
      - exists m. split; [apply elem_of_app; by left|].
        destruct (value_eqb k w) eqn:Hk; [|lia].
        assert (k = w) as ->.
        { apply (Hsame (k, m) (w, n)); [|done..].
          apply elem_of_app. by left. }
        rewrite fmap_app in Hnd. apply NoDup_app in Hnd as (_ & Hnd & _).
        destruct (Hnd w); [by apply (list_elem_of_fmap_2 fst _ (w, m))|].
        csimpl. by left.
      - exists n. split; [done|]. rewrite value_eqb_refl. lia.
      - exists m. split; [apply elem_of_app; right; by right|].
        destruct (value_eqb k w) eqn:Hk; [|lia].
        assert (k = w) as ->.
        { apply (Hsame (k, m) (w, n)); [|done..].
          apply elem_of_app. right. by right. }
        rewrite fmap_app in Hnd.
        apply NoDup_app in Hnd as (_ & _ & Hnd). csimpl in Hnd.
        apply NoDup_cons in Hnd as [Hnd _]. destruct Hnd.
        by apply (list_elem_of_fmap_2 fst _ (w, m)). }
    split_and!.
    + intros p (m & Hm & Hp2)%Hback. destruct (Hocc _ Hm) as [Hin Hn].
      simpl in *. split; [apply elem_of_app; by left|].
      assert (value_eqb p.1 w = value_eqb p.1 v) as Heq.
      { apply eq_true_iff_eq. split; intros Hx.
        - eapply value_eqb_trans; [exact Hx|]. by rewrite value_eqb_sym.
        - by eapply value_eqb_trans. }
      by rewrite Hsnoc, Hp2, <- Hn, Heq.
    + intros x [Hx|Hx]%elem_of_app;
        [|apply list_elem_of_singleton in Hx as ->].
      * destruct (Hcov x Hx) as ([k m] & Hp & Hxp). simpl in *.
        revert Hp. rewrite elem_of_app, elem_of_cons.
        intros [Hp|[[= -> ->]|Hp]].
        -- exists (k, m). split; [apply elem_of_app; by left|done].
        -- exists (w, S n). split; [apply elem_of_app; right; by left|done].
        -- exists (k, m).
           split; [apply elem_of_app; right; by right|done].
      * exists (w, S n). split; [apply elem_of_app; right; by left|done].
    + by rewrite fmap_app in *.
    + intros p q (m & Hm & _)%Hback (m' & Hm' & _)%Hback.
      apply (Hsame _ _ Hm Hm').
Qed.

Lemma tally_nil : tally [] [].
Proof.
  split_and!; try by intros ? ?%elem_of_nil. - constructor.
  - by intros ? ? ?%elem_of_nil.
Qed.

Lemma count_values_tally col : tally col (count_values col).
Proof.
  unfold count_values.
  induction col as [|v col IH] using rev_ind; [apply tally_nil|].
  rewrite foldl_app. simpl. by apply tally_bump.
Qed.

Lemma count_values_sum col :
  sum_list (snd <$> count_values col) = length col.
Proof.
  unfold count_values.
  induction col as [|v col IH] using rev_ind; [done|].
  rewrite foldl_app, length_app. simpl. rewrite bump_sum, IH. lia.
Qed.

End tallies.

Lemma tally_Permutation col counts counts' :
  counts ≡ₚ counts' → tally col counts → tally col counts'.
Proof.
  intros Hp (Hocc & Hcov & Hnd & Hsame). split_and!.
  - intros p Hin. apply Hocc. by rewrite Hp.
  - intros x (p & Hin & Hx)%Hcov. exists p. by rewrite <- Hp.
  - by rewrite <- Hp.
  - intros p q Hin Hin'. apply Hsame; by rewrite Hp.
Qed.

Lemma sort_desc_Permutation l : sort_desc l ≡ₚ l.
Proof.
  induction l as [|x l IH]; simpl; [done|]. by rewrite insert_desc_perm, IH.
Qed.

Lemma occurrences_witness v col :
  (0 < occurrences v col)%nat → ∃ x, x ∈ col ∧ value_eqb v x = true.
Proof.
  unfold occurrences. intros Hv.
  destruct (List.filter (value_eqb v) col) as [|x l] eqn:Hf; [simpl in Hv; lia|].
  exists x. rewrite list_elem_of_In. apply (filter_In (value_eqb v)).
  rewrite Hf. by left.
Qed.

Lemma tally_le col counts v p :
  tally col counts → p ∈ counts →
  (∀ q, q ∈ counts → (q.2 ≤ p.2)%nat) →
  (occurrences v col ≤ p.2)%nat.
Proof.
  intros (Hocc & Hcov & _ & _) Hp Hmax.
  destruct (decide (occurrences v col = 0)%nat) as [->|Hv]; [lia|].
  destruct (occurrences_witness v col) as (x & Hx & Hvx); [lia|].
  destruct (Hcov x Hx) as (q & Hq & Hxq).
  rewrite (occurrences_same v q.1) by (by eapply value_eqb_trans).
  destruct (Hocc q Hq) as [_ <-]. by apply Hmax.
Qed.

Lemma max_list_attained l : l ≠ [] → max_list l ∈ l.
Proof.
  induction l as [|n l IH]; [done|]. intros _. simpl.
  destruct l as [|m l'].
  { simpl. rewrite Nat.max_0_r. by left. }
  destruct (Nat.max_spec n (max_list (m :: l'))) as [[_ ->]|[_ ->]].
  - right. by apply IH.
  - by left.
Qed.

Lemma mode_top col x :
  label0 (mode col) = inr x →
  (x, occurrences x (series_dropna col)) ∈ count_values (series_dropna col)
  ∧ ∀ q, q ∈ count_values (series_dropna col) →
         (q.2 ≤ occurrences x (series_dropna col))%nat.
Proof.
  unfold mode. set (counts := count_values (series_dropna col)).
  set (top := max_list counts.*2).
  set (modes := (List.filter (λ p, p.2 =? top)%nat counts).*1). simpl.
  intros Hx.
  assert (x ∈ modes) as Hin.
  { destruct (py_sorted modes) as [|l] eqn:Hs.
    - destruct modes; [done|]. injection Hx as ->. by left.
    - apply py_sorted_Permutation in Hs. rewrite <- Hs.
      destruct l; [done|]. injection Hx as ->. by left. }
  apply list_elem_of_fmap in Hin as ([k n] & -> & [Hin Hn]%list_elem_of_In%filter_In).
  simpl in *. apply Nat.eqb_eq in Hn. apply list_elem_of_In in Hin.
  destruct (count_values_tally (series_dropna col)) as (Hocc & _).
  destruct (Hocc _ Hin) as [_ Hk]. simpl in Hk. fold counts in Hin.
  rewrite <- Hk. split; [done|]. intros q Hq. rewrite Hn.
  apply max_list_elem_of_le. by apply (list_elem_of_fmap_2 snd).
Qed.

Lemma mode_nonempty col :
  series_dropna col ≠ [] → ∃ x, label0 (mode col) = inr x.
Proof.
  intros Hne. unfold mode. set (counts := count_values (series_dropna col)).
  set (top := max_list counts.*2).
  set (modes := (List.filter (λ p, p.2 =? top)%nat counts).*1). simpl.
  assert (modes ≠ []) as Hmodes.
  { assert (counts ≠ []) as Hcounts.
    { assert (∃ v, v ∈ series_dropna col) as [v Hv].
      { destruct (series_dropna col) as [|v l]; [done|]. exists v. by left. }
      destruct (count_values_tally (series_dropna col)) as (_ & Hcov & _).
      destruct (Hcov v Hv) as (p & Hp & _).
      intros Hnil. unfold counts in Hnil. rewrite Hnil in Hp.
      by apply elem_of_nil in Hp. }
    assert (top ∈ counts.*2) as ([k n] & Hn & Hp)%list_elem_of_fmap.
    { apply max_list_attained. by destruct counts. }
    simpl in Hn. assert (k ∈ modes) as Hk; [|by destruct modes; [apply elem_of_nil in Hk|]].
    apply (list_elem_of_fmap_2 fst _ (k, n)). apply list_elem_of_In, filter_In.
    split; [by apply list_elem_of_In|]. simpl. apply Nat.eqb_eq. done. }
  destruct (py_sorted modes) as [|l] eqn:Hs.
  - destruct modes; [done|]. eauto.
  - apply py_sorted_Permutation in Hs. destruct l as [|x l]; [|eauto].
    apply Permutation_nil_l in Hs. by symmetry in Hs.
Qed.

Section count_laws.
Context `{CountLaws}.

Lemma value_counts_tally col :
  tally (series_dropna col) (value_counts col).
Proof.
  unfold value_counts. eapply tally_Permutation; [|apply count_values_tally].
  symmetry. apply sort_values_perm.
Qed.

Lemma value_counts_head col p :
  iloc0 (value_counts col) = inr p →
  p ∈ value_counts col ∧ ∀ q, q ∈ value_counts col → (q.2 ≤ p.2)%nat.
Proof.
  pose proof (sort_values_sorted (count_values (series_dropna col))) as Hs.
  unfold value_counts. destruct (sort_values _) as [|p' l]; [done|].
  intros [= ->]. split; [by left|]. intros q [->|Hq]%elem_of_cons; [done|].
  apply StronglySorted_inv in Hs as [_ Hs].
  by apply (proj1 (Forall_forall _ _) Hs).
Qed.

(** X11: the counts shown for a column (the years, the genders, the
    events): every value present in the column is listed once, with the
    number of records that hold it; the entries come by descending count
    and the counts add up to the number of records whose cell is present. *)
Theorem counts_of_tally c d counts :
  counts_of c d = inr counts →
  let present := series_dropna (cell c <$> rows d) in
  tally present counts
  ∧ StronglySorted count_ge counts
  ∧ sum_list counts.*2 = length present.
Proof.
  unfold counts_of. destruct (getitem c d) as [|col] eqn:Hcol; [done|].
  apply getitem_inr in Hcol as [_ ->]. intros [= <-]. simpl. split_and!.
  - apply value_counts_tally.
  - apply sort_values_sorted.
  - unfold value_counts. rewrite sort_values_perm. apply count_values_sum.
Qed.

End count_laws.

Lemma series_dropna_present col :
  Forall (λ v, notna v = true) col → series_dropna col = col.
Proof.
  unfold series_dropna. induction 1 as [|v col Hv _ IH]; simpl; [done|].
  by rewrite Hv, IH.
Qed.

Section top_college.
Context `{CountLaws}.

(** X12: when some filtered record has a completed profile, the key
    metrics of lines 79-86 are all rendered and the third one is
    consistent: the college shown is a college of the completed profiles
    that no other college outnumbers, and the delta shown beside it is the
    number of completed profiles of that very college. *)
Theorem key_metrics_top_college filtered w :
  let d := heap w !!! filtered in
  let completed :=
    List.filter (λ r, forallb (λ c, notna (cell c r))
                              ["First Name"; "College Name"; "Gender"])
                (rows d) in
  let colleges := cell "College Name" <$> completed in
  Forall (λ c, c ∈ columns d) ["First Name"; "College Name"; "Gender"] →
  completed ≠ [] →
  ∃ top w',
    key_metrics filtered w = (Ret (), w')
    ∧ screen w'
      = (screen w
         ++ [ Markdown "---"; Header "📈 Key Metrics Overview";
              Metric "Total Registrations (Filtered)"
                     (VStr (pretty (length (rows d)))) None;
              Metric "Completed Profiles"
                     (VStr (pretty (length completed))) None;
              Metric "Top College in Selection" top
                     (Some (pretty (occurrences top colleges)
                            +:+ " Registrations"));
              Markdown "---" ])%list
    ∧ top ∈ colleges
    ∧ ∀ v, (occurrences v colleges ≤ occurrences top colleges)%nat.
Proof.
  intros d completed colleges Hcols Hne.
  assert (series_dropna colleges = colleges) as Hpresent.
  { apply series_dropna_present, Forall_fmap, Forall_forall.
    intros r [_ Hr]%list_elem_of_In%filter_In. simpl in *.
    by destruct (cell "College Name" r); rewrite ?andb_false_r in Hr. }
  assert (colleges ≠ []) as Hne'.
  { unfold colleges. by destruct completed. }
  destruct (mode_nonempty colleges) as [top Htop]; [by rewrite Hpresent|].
  pose proof (mode_top colleges top Htop) as [Hin Hmax].
  rewrite Hpresent in Hin, Hmax.
  pose proof (count_values_tally colleges) as Htally.
  assert (∃ p, iloc0 (value_counts colleges) = inr p) as [p Hp].
  { destruct (value_counts colleges) as [|p l] eqn:Hvc; [|by exists p].
    unfold value_counts in Hvc. rewrite Hpresent in Hvc.
    pose proof (sort_values_perm (count_values colleges)) as Hperm.
    rewrite Hvc in Hperm. apply Permutation_nil_l in Hperm.
    rewrite <- Hperm in Hin. by apply elem_of_nil in Hin. }
  destruct (value_counts_head colleges p Hp) as [Hp_in Hp_max].
  assert (p.2 = occurrences top colleges) as Hcount.
  { apply Nat.le_antisymm.
    - apply (Hmax p). unfold value_counts in Hp_in.
      rewrite Hpresent, sort_values_perm in Hp_in. done.
    - apply (Hp_max (top, occurrences top colleges)). unfold value_counts.
      by rewrite Hpresent, sort_values_perm. }
  exists top. eexists. split_and!.
  - unfold key_metrics.
    unfold mbind, M_bind, render, deref, df_getitem, new_frame. simpl.
    fold d. rewrite (dropna_present _ d Hcols). simpl. fold completed.
    unfold mbind, M_bind, deref. simpl.
    rewrite lookup_total_insert_eq. unfold getitem. simpl.
    rewrite bool_decide_eq_true_2.
    2:{ by apply Forall_cons_1 in Hcols as [_ [? _]%Forall_cons_1]. }
    simpl. change (List.filter _ (rows d)) with completed. fold colleges.
    rewrite Htop. simpl.
    rewrite lookup_total_insert_eq. simpl.
    rewrite bool_decide_eq_true_2.
    2:{ by apply Forall_cons_1 in Hcols as [_ [? _]%Forall_cons_1]. }
    simpl. change (List.filter _ (rows d)) with completed. fold colleges.
    rewrite Hp. simpl. reflexivity.
  - simpl. rewrite Hcount, <- !app_assoc. done.
  - destruct (proj1 Htally _ Hin) as [? _]. done.
  - intros v. apply (tally_le _ _ v (top, occurrences top colleges) Htally Hin).
    done.
Qed.

End top_college.

Section largest.
Context `{CountLaws}.

(** X13: the entries of a top-10 view are true counts, and they are the
    largest: each entry is a value present in the column with the number
    of records that hold it, no value is listed twice, and a present value
    that is left out occurs no more often than any value listed (the view
    then has its 10 entries). *)
Theorem top_counts_are_largest c d out :
  top_counts c d = inr out →
  let present := series_dropna (cell c <$> rows d) in
  (∀ p, p ∈ out → p.1 ∈ present ∧ p.2 = occurrences p.1 present)
  ∧ NoDup out.*1
  ∧ (∀ v, v ∈ present →
       (∃ p, p ∈ out ∧ value_eqb v p.1 = true)
       ∨ (length out = 10%nat
          ∧ ∀ p, p ∈ out → (occurrences v present ≤ p.2)%nat)).
Proof.
  unfold top_counts. destruct (getitem c d) as [|col] eqn:Hcol; [done|].
  apply getitem_inr in Hcol as [_ ->]. intros [= <-]. simpl.
  set (present := series_dropna (cell c <$> rows d)).
  set (sorted := sort_desc (value_counts (cell c <$> rows d))).
  assert (tally present sorted) as (Hocc & Hcov & Hnd & _).
  { eapply tally_Permutation; [|apply value_counts_tally].
    symmetry. apply sort_desc_Permutation. }
  pose proof (sort_desc_sorted (value_counts (cell c <$> rows d))) as Hs.
  fold sorted in Hs. unfold nlargest. fold sorted.
  rewrite <- (take_drop 10 sorted) in Hs.
  assert (∀ p, p ∈ take 10 sorted → p ∈ sorted) as Hsub.
  { intros p Hp. rewrite <- (take_drop 10 sorted). apply elem_of_app. by left. }
  split_and!.
  - intros p Hp. by apply Hocc, Hsub.
  - rewrite fmap_take. eapply sublist_NoDup; [exact Hnd|apply sublist_take].
  - intros v (q & Hq & Hvq)%Hcov.
    rewrite <- (take_drop 10 sorted) in Hq.
    apply elem_of_app in Hq as [Hq|Hq]; [left; by exists q|]. right. split.
    + rewrite length_take. apply Nat.min_l.
      destruct (decide (10 ≤ length sorted)%nat) as [|Hlt]; [done|].
      rewrite drop_ge in Hq by lia. by apply elem_of_nil in Hq.
    + intros p Hp. rewrite (occurrences_same v q.1) by done.
      assert (q ∈ sorted) as Hq'.
      { rewrite <- (take_drop 10 sorted). apply elem_of_app. by right. }
      destruct (Hocc q Hq') as [_ <-].
      apply (StronglySorted_app_1_elem_of _ _ _ _ _ Hs Hp Hq).
Qed.

End largest.

(** ** The exploded events *)


Lemma bind_ext_all {A B} (f g : A → list B) l :
  (∀ x, f x = g x) → l ≫= f = l ≫= g.
Proof.
  intros Hfg. induction l as [|x l IH]; csimpl; [done|]. by rewrite Hfg, IH.
Qed.

Lemma bind_filter_fmap {A B C} (p : A → bool) (f : A → B) (g : B → list C)
    (l : list A) :
  (f <$> List.filter p l) ≫= g
  = l ≫= (λ x, if p x then g (f x) else []).
Proof.
  induction l as [|x l IH]; csimpl; [done|].
  destruct (p x); csimpl; by rewrite IH.
Qed.






(** ** From the upload to the filtered frame *)

Lemma filter_frame_Ret df colleges years first last w fl w' :
  filter_frame df (colleges, years, first, last) w = (Ret fl, w') →
  ∃ out, df_filtered (heap w !!! df) colleges years first last = inr out
         ∧ df_empty out = false
         ∧ fl = fresh (dom (heap w))
         ∧ w' = mkWorld (<[fl := out]> (heap w)) (screen w).
Proof.
  unfold filter_frame.
  intros (d & ? & [= <- <-] & Hrun)%bind_Ret.
  apply bind_Ret in Hrun as (filtered & ? & [Hf ->]%lift_Ret & Hrun).
  apply bind_Ret in Hrun as (l & w1 & [= <- <-] & Hrun).
  apply bind_Ret in Hrun as (? & w2 & Hcheck & [= <- <-]).
  destruct (df_empty filtered) eqn:Hempty; [done|]. injection Hcheck as <-.
  simplify_eq/=. by exists filtered.
Qed.

Section upload.
Context `{Library} `{Session}.

Lemma ingest_complete bytes w df w' :
  ingest bytes w = (Ret df, w') →
  "Registration Date" ∈ columns (heap w' !!! df)
  ∧ "Year of Study Cleaned" ∈ columns (heap w' !!! df)
  ∧ Forall complete_record (rows (heap w' !!! df)).
Proof.
  intros Hrun%try_except_Ret; [|done].
  apply bind_Ret in Hrun as (parsed & ? & [Hread ->]%lift_Ret & Hrun).
  apply bind_Ret in Hrun as (df_raw & w1 & [= <- <-] & Hrun).
  apply bind_Ret in Hrun as (? & w2 & [= <-] & Hrun).
  apply bind_Ret in Hrun as (raw & ? & [= <- <-] & Hrun).
  apply bind_Ret in Hrun as (? & w3 & Hcheck & Hrun).
  apply bind_Ret in Hrun as (copy & w4 & Hcopy & Hrun).
  destruct (df_empty _); [done|]. injection Hcheck as <-.
  unfold df_copy, deref, new_frame in Hcopy. simpl in Hcopy.
  injection Hcopy as <- <-.
  apply preprocess_data_Ret in Hrun as (out & -> & -> & _ & Hd & Hy & Hrows).
  simpl. rewrite lookup_total_insert_eq. split_and!; [done..|].
  apply Forall_forall. intros r Hr.
  destruct (Forall2_elem_of_r _ _ _ _ Hrows Hr)
    as (rin & _ & ns & x & z & _ & _ & _ & ->).
  split.
  - eexists. rewrite lookup_insert_ne by done. apply lookup_insert_eq.
  - eexists. apply lookup_insert_eq.
Qed.

(** X16: what lines 42-76 hand to the rest of the script.  When the run
    gets past the filters, the filtered frame is not empty, it has the
    three columns the views read, and every record in it has a
    registration date and a year label. *)
Theorem filtered_set_returns_normalized bytes w fl w' :
  filtered_set bytes w = (Ret fl, w') →
  normalized (heap w' !!! fl) ∧ rows (heap w' !!! fl) ≠ [].
Proof.
  unfold filtered_set. intros (df & w1 & Hingest & Hrun)%bind_Ret.
  apply bind_Ret in Hrun as (selection & w2 & Hheap%sidebar_heap & Hrun).
  destruct selection as [[[colleges years] first] last].
  apply filter_frame_Ret in Hrun as (out & Hout & Hempty & -> & ->).
  simpl. rewrite lookup_total_insert_eq.
  apply ingest_complete in Hingest as (_ & _ & Hrows).
  rewrite <- Hheap in Hrows.
  apply df_empty_false in Hempty as [_ Hne].
  apply df_filtered_inr in Hout as [(Hc & Hy & Hd) ->]. simpl in *.
  split; [|done]. split_and!; try done. simpl.
  apply Forall_forall. intros r [Hr _]%list_elem_of_In%filter_In.
  by apply (proj1 (Forall_forall _ _) Hrows), list_elem_of_In.
Qed.

End upload.

(** ** Grouping *)

Section groups.
Local Open Scope list_scope.

Lemma sum_occurrences keys col :
  NoDup keys →
  (∀ k k', k ∈ keys → k' ∈ keys → value_eqb k k' = true → k = k') →
  (∀ x, x ∈ col → ∃ k, k ∈ keys ∧ value_eqb x k = true) →
  sum_list ((λ k, occurrences k col) <$> keys) = length col.
Proof.
  intros Hnd. revert col.
  induction Hnd as [|k ks Hk Hnd IH]; intros col Hsame Hcov.
  { destruct col as [|x col]; [done|].
    destruct (Hcov x) as (k & ?%elem_of_nil & _); [by left|done]. }
  csimpl.
  set (col' := List.filter (λ x, negb (value_eqb k x)) col).
  rewrite <- (List.filter_length (value_eqb k) col). fold col'.
  unfold occurrences at 1. f_equal.
  rewrite <- (IH col').
  - f_equal. apply Forall_fmap_ext_1, Forall_forall. intros k' Hk'.
    unfold occurrences, col'. rewrite filter_filter_and. f_equal.
    apply filter_ext_all. intros x.
    destruct (value_eqb k' x) eqn:Hk'x; [|by rewrite andb_false_r].
    destruct (value_eqb k x) eqn:Hkx; [|done].
    destruct Hk. rewrite (Hsame k k'); [done|by left|by right|].
    eapply value_eqb_trans; [exact Hkx|]. by rewrite value_eqb_sym.
  - intros k1 k2 ? ?. apply Hsame; by right.
  - intros x [Hx Hkx]%list_elem_of_In%filter_In.
    destruct (Hcov x) as (k0 & Hk0 & Hxk0); [by apply list_elem_of_In|].
    apply elem_of_cons in Hk0 as [->|Hk0]; [|by exists k0].
    rewrite value_eqb_sym, Hxk0 in Hkx. done.
Qed.

End groups.

Lemma mapM_as_date ks : mapM as_date (VDate <$> ks) = Some ks.
Proof.
  apply mapM_Some. apply Forall2_fmap_l, Forall_Forall2_diag, Forall_forall.
  done.
Qed.

Lemma date_list l : Forall (λ v, ∃ k, v = VDate k) l → ∃ ks, l = VDate <$> ks.
Proof.
  induction 1 as [|v l [s ->] _ [ss ->]]; [by exists []|].
  by exists (s :: ss).
Qed.

Lemma group_keys_dates col :
  Forall (λ v, ∃ k, v = VDate k) col →
  ∃ days, group_keys col = VDate <$> days
          ∧ Sorted Z.le days ∧ NoDup days
          ∧ ∀ k, k ∈ days ↔ VDate k ∈ col.
Proof.
  intros Hcol. unfold group_keys.
  assert (series_dropna col = col) as ->.
  { apply series_dropna_present. eapply Forall_impl; [exact Hcol|].
    by intros v [k ->]. }
  assert (Forall (λ v, ∃ k, v = VDate k) (unique col)) as Hu.
  { apply Forall_forall. intros v Hv%unique_elem_of.
    by apply (proj1 (Forall_forall _ _) Hcol). }
  apply date_list in Hu as [us Hus]. rewrite Hus, mapM_as_date.
  exists (merge_sort Z.le us). split; [done|]. split_and!.
  - apply Sorted_merge_sort. apply _.
  - rewrite merge_sort_Permutation. eapply (NoDup_fmap_1 VDate).
    rewrite <- Hus. apply unique_from_NoDup.
  - intros k. rewrite merge_sort_Permutation. split.
    + intros Hk. apply unique_elem_of. rewrite Hus.
      by apply list_elem_of_fmap_2.
    + intros (o & Ho & Hko)%unique_covers.
      destruct o; simpl in Hko; try done. apply Z.eqb_eq in Hko as <-.
      rewrite Hus in Ho. apply list_elem_of_fmap in Ho as (k' & [= ->] & ?).
      done.
Qed.

(** X17: the timeline of lines 98-99 on a normalized frame: one entry per
    day on which a filtered record was registered, the days in ascending
    order and none twice, each with the number of records registered that
    day; the counts add up to the number of filtered records. *)
Theorem daily_registrations_by_day d :
  normalized d →
  let dates := cell "Registration Date" <$> rows d in
  ∃ days,
    daily_registrations d
    = inr ((λ k, (VDate k, occurrences (VDate k) dates)) <$> days)
    ∧ Sorted Z.le days ∧ NoDup days
    ∧ (∀ k, k ∈ days ↔ VDate k ∈ dates)
    ∧ Forall (λ k, (0 < occurrences (VDate k) dates)%nat) days
    ∧ sum_list ((λ k, occurrences (VDate k) dates) <$> days)
      = length (rows d).
Proof.
  intros Hnorm dates.
  pose proof (normalized_dates d Hnorm) as Hdates. fold dates in Hdates.
  destruct (group_keys_dates dates Hdates) as (days & Hkeys & Hs & Hnd & Hin).
  exists days. destruct Hnorm as (_ & _ & Hd & _). split_and!; try done.
  - unfold daily_registrations, groupby_size.
    rewrite getitem_present by done. simpl. fold dates.
    by rewrite Hkeys, <- list_fmap_compose.
  - apply Forall_forall. intros k Hk%Hin. by apply occurrences_pos.
  - replace (length (rows d)) with (length dates)
      by (unfold dates; by rewrite length_fmap).
    rewrite <- (sum_occurrences (VDate <$> days) dates).
    + by rewrite <- list_fmap_compose.
    + apply NoDup_fmap_2_strong; [|done]. by intros ? ? _ _ [=].
    + intros k k' (a & -> & _)%list_elem_of_fmap (b & -> & _)%list_elem_of_fmap.
      simpl. by intros ->%Z.eqb_eq.
    + intros x Hx. destruct (proj1 (Forall_forall _ _) Hdates x Hx) as [k ->].
      exists (VDate k). split; [|apply value_eqb_refl].
      by apply list_elem_of_fmap_2, Hin.
Qed.

Lemma unique_from_length seen col :
  (length (unique_from seen col) ≤ length col)%nat.
Proof.
  revert seen. induction col as [|v col IH]; intros seen; simpl; [done|].
  destruct (existsb _ seen); [specialize (IH seen)|specialize (IH (v :: seen))];
    simpl; lia.
Qed.

Lemma series_dropna_length col :
  (length (series_dropna col) ≤ length col)%nat.
Proof.
  unfold series_dropna. induction col as [|v col IH]; simpl; [done|].
  destruct (notna v); simpl; lia.
Qed.

Lemma occurrences_dropna v col :
  v ≠ NA → occurrences v (series_dropna col) = occurrences v col.
Proof.
  intros Hv. unfold occurrences, series_dropna.
  rewrite filter_filter_and. f_equal. apply filter_ext_all. intros x.
  destruct x; simpl; try done. destruct v; simpl; done.
Qed.

Lemma occurrences_fmap {A} (f : A → value) v l :
  occurrences v (f <$> l) = length (List.filter (λ x, value_eqb v (f x)) l).
Proof. unfold occurrences. by rewrite filter_fmap_comm, length_fmap. Qed.

Section summary_laws.
Context `{CountLaws}.

(** X18: the event summary of lines 169-178 lists the events of the
    participant counts, in their order and with their totals, and no
    event has more unique teams than participants. *)
Theorem event_summary_teams_bounded exploded summary :
  event_summary exploded = inr summary →
  event_counts exploded = inr (fst <$> summary)
  ∧ Forall (λ s, (s.2 ≤ s.1.2)%nat) summary.
Proof.
  unfold event_summary.
  destruct (event_counts exploded) as [|totals] eqn:Htotals; [done|]. simpl.
  destruct (groupby_nunique _ _ _) as [|teams] eqn:Hteams; [done|].
  intros [= <-]. split.
  { rewrite <- list_fmap_compose. f_equal. symmetry.
    etrans; [|apply list_fmap_id]. apply fmap_ext_all. by intros [? ?]. }
  apply Forall_fmap, Forall_forall. intros [e n] Hp. simpl.
  destruct (List.find _ teams) as [[key t]|] eqn:Hfind; [|lia]. simpl.
  apply find_some in Hfind as [Hq%list_elem_of_In Hkey]. simpl in Hkey.
  unfold event_counts, counts_of in Htotals.
  unfold groupby_nunique in Hteams.
  destruct (getitem "Registered Events" exploded) as [|events] eqn:Hev;
    [done|].
  simpl in Htotals, Hteams. injection Htotals as <-.
  apply getitem_inr in Hev as [_ ->].
  case_bool_decide; [|done]. injection Hteams as <-.
  apply list_elem_of_fmap in Hq as (key' & [= <- ->] & _).
  destruct (value_counts_tally (cell "Registered Events" <$> rows exploded))
    as (Hocc & _).
  destruct (Hocc _ Hp) as [[_ Hna]%series_dropna_elem_of Hn].
  simpl in Hna, Hn. rewrite Hn.
  rewrite occurrences_dropna by done.
  rewrite (occurrences_same e key) by done. rewrite occurrences_fmap.
  etrans; [apply unique_from_length|].
  etrans; [apply series_dropna_length|]. by rewrite length_fmap.
Qed.

End summary_laws.

(** ** The further properties on examples *)

Lemma fixture_count_laws : @CountLaws Fixture.library.
Proof.
  constructor; simpl; [apply sort_desc_Permutation|apply sort_desc_sorted].
Qed.

Lemma registrations_normalized : normalized Fixture.registrations.
Proof.
  unfold normalized.
  split_and!; [by eapply bool_decide_unpack; vm_compute; reflexivity..|].
  repeat (apply Forall_cons; split;
            [split; eexists; vm_compute; reflexivity|]).
  apply Forall_nil_2.
Qed.

Lemma registrations_text :
  Forall (λ r, text_or_missing (cell "College Name" r))
         (rows Fixture.registrations).
Proof.
  repeat (apply Forall_cons; split;
            [first [ by left; vm_compute; reflexivity
                   | right; eexists; vm_compute; reflexivity ]|]).
  apply Forall_nil_2.
Qed.

Lemma df_filtered_keeps_order_witness :
  columns Fixture.mit_registrations = columns Fixture.registrations
  ∧ rows Fixture.mit_registrations `sublist_of` rows Fixture.registrations.
Proof.
  apply (df_filtered_keeps_order Fixture.registrations [VStr "MIT"] [VStr "2"]
           (VDate 19737) (VDate 19737)).
  vm_compute. reflexivity.
Defined.

Lemma df_filtered_idempotent_witness :
  df_filtered Fixture.mit_registrations [VStr "MIT"] [VStr "2"]
              (VDate 19737) (VDate 19737)
  = inr Fixture.mit_registrations.
Proof.
  apply (df_filtered_idempotent Fixture.registrations). vm_compute. reflexivity.
Defined.

Lemma filter_frame_returns_new_frame_witness :
  let w := Fixture.world_of Fixture.registrations in
  let run := filter_frame 0 ([VStr "MIT"], [VStr "2"], VDate 19737, VDate 19737)
                          w in
  heap w !! 1%nat = None
  ∧ (∀ l, l ≠ 1%nat → heap run.2 !! l = heap w !! l)
  ∧ screen run.2 = screen w
  ∧ rows (heap run.2 !!! 1%nat) ≠ []
  ∧ columns (heap run.2 !!! 1%nat) = columns (heap w !!! 0%nat).
Proof.
  intros w run.
  apply (filter_frame_returns_new_frame 0
           ([VStr "MIT"], [VStr "2"], VDate 19737, VDate 19737) w 1 run.2).
  apply (run_returns run). vm_compute. reflexivity.
Defined.

Lemma sidebar_offers_witness :
  ∃ colleges years,
    (@sidebar Fixture.untouched 0 (Fixture.world_of Fixture.registrations)).1
    = Ret (VStr <$> colleges, VStr <$> years, VDate 19737, VDate 19738)
    ∧ options_of (cell "College Name" <$> rows Fixture.registrations) colleges
    ∧ options_of (cell "Year of Study Cleaned" <$> rows Fixture.registrations)
                 years.
Proof.
  destruct (sidebar_offers (H := Fixture.untouched) 0
              (Fixture.world_of Fixture.registrations) (VDate 19737) (VDate 19738))
    as (colleges & years & Hrun & Hc & Hy & _).
  - apply registrations_normalized.
  - apply registrations_text.
  - reflexivity.
  - exists colleges, years. rewrite Hrun. split; [reflexivity|].
    split; [exact Hc|exact Hy].
Defined.

Lemma default_selection_drops_missing_college_witness :
  let d := heap (Fixture.world_of Fixture.registrations) !!! 0%nat in
  let dates := cell "Registration Date" <$> rows d in
  ∃ colleges years,
    df_filtered d colleges years (series_min dates) (series_max dates)
    = inr (mkDF (columns d)
                (List.filter (λ r, notna (cell "College Name" r)) (rows d)))
    ∧ length (rows d) = 3%nat
    ∧ length (List.filter (λ r, notna (cell "College Name" r)) (rows d))
      = 2%nat.
Proof.
  intros d dates.
  destruct (default_selection_drops_missing_college (H := Fixture.untouched) 0
              (Fixture.world_of Fixture.registrations))
    as (colleges & years & w1 & _ & _ & Hf).
  - apply registrations_normalized.
  - apply registrations_text.
  - reflexivity.
  - vm_compute. reflexivity.
  - exists colleges, years. split; [exact Hf|].
    split; vm_compute; reflexivity.
Defined.

Lemma counts_of_tally_witness :
  let counts := [(VStr "M", 2%nat); (VStr "F", 1%nat)] in
  let present := series_dropna (cell "Gender" <$> rows Fixture.registrations) in
  tally present counts
  ∧ StronglySorted count_ge counts
  ∧ sum_list counts.*2 = length present.
Proof.
  apply (counts_of_tally (H0 := fixture_count_laws) "Gender"
           Fixture.registrations).
  vm_compute. reflexivity.
Defined.

Lemma key_metrics_top_college_witness :
  let w := Fixture.world_of Fixture.registrations in
  let colleges :=
    cell "College Name"
      <$> List.filter (λ r, forallb (λ c, notna (cell c r))
                                    ["First Name"; "College Name"; "Gender"])
                      (rows (heap w !!! 0%nat)) in
  ∃ top,
    (@key_metrics Fixture.library 0 w).1 = Ret ()
    ∧ top ∈ colleges
    ∧ ∀ v, (occurrences v colleges ≤ occurrences top colleges)%nat.
Proof.
  intros w colleges.
  destruct (key_metrics_top_college (H0 := fixture_count_laws) 0 w)
    as (top & w' & Hrun & _ & Hin & Hmax).
  - repeat (apply Forall_cons; split;
              [by eapply bool_decide_unpack; vm_compute|]).
    apply Forall_nil_2.
  - intros Hnil. apply (f_equal length) in Hnil. vm_compute in Hnil.
    discriminate Hnil.
  - exists top. rewrite Hrun. split; [reflexivity|].
    split; [exact Hin|exact Hmax].
Defined.

Lemma top_counts_are_largest_witness :
  ∃ out,
    @top_counts Fixture.library "College Name" Fixture.colleges_frame
    = inr out
    ∧ length out = 10%nat
    ∧ NoDup out.*1.
Proof.
  eexists. split; [vm_compute; reflexivity|]. split; [reflexivity|].
  refine (proj1 (proj2 (top_counts_are_largest (H0 := fixture_count_laws)
                          "College Name" Fixture.colleges_frame _ _))).
  vm_compute. reflexivity.
Defined.


Lemma filtered_set_returns_normalized_witness :
  normalized Fixture.sample_filtered ∧ rows Fixture.sample_filtered ≠ [].
Proof.
  apply (filtered_set_returns_normalized (H := Fixture.library)
           (H0 := Fixture.sample_session) Fixture.sample_file Fixture.blank
           2%nat Fixture.sample_run.2).
  apply (run_returns Fixture.sample_run). vm_compute. reflexivity.
Defined.

Lemma daily_registrations_by_day_witness :
  let dates := cell "Registration Date" <$> rows Fixture.registrations in
  ∃ days,
    daily_registrations Fixture.registrations
    = inr ((λ k, (VDate k, occurrences (VDate k) dates)) <$> days)
    ∧ Sorted Z.le days ∧ NoDup days
    ∧ sum_list ((λ k, occurrences (VDate k) dates) <$> days) = 3%nat.
Proof.
  intros dates.
  destruct (daily_registrations_by_day Fixture.registrations
              registrations_normalized)
    as (days & Hrun & Hs & Hnd & _ & _ & Hsum).
  exists days. split; [exact Hrun|]. split; [exact Hs|].
  split; [exact Hnd|]. exact Hsum.
Defined.

Lemma event_summary_teams_bounded_witness :
  let summary := [(VStr "A", 2%nat, 1%nat); (VStr "B", 1%nat, 1%nat)] in
  @event_counts Fixture.library Fixture.exploded = inr (fst <$> summary)
  ∧ Forall (λ s, (s.2 ≤ s.1.2)%nat) summary.
Proof.
  apply (event_summary_teams_bounded (H0 := fixture_count_laws) Fixture.exploded).
  vm_compute. reflexivity.
Defined.

(** ** Widening a selection *)

Lemma existsb_subseteq {A} (p : A → bool) (l k : list A) :
  (∀ x, x ∈ l → x ∈ k) → existsb p l = true → existsb p k = true.
Proof.
  intros Hlk. rewrite !existsb_exists. intros (x & Hx%list_elem_of_In & Hp).
  exists x. split; [by apply list_elem_of_In, Hlk|done].
Qed.

Lemma filter_sublist_impl {A} (p q : A → bool) l :
  (∀ x, p x = true → q x = true) →
  List.filter p l `sublist_of` List.filter q l.
Proof.
  intros Hpq. induction l as [|x l IH]; simpl; [constructor|].
  destruct (p x) eqn:Hp.
  - rewrite (Hpq x Hp). by constructor.
  - destruct (q x); [by constructor|done].
Qed.

(** X19: selecting more never shows less.  When the filters succeed for a
    selection, they succeed for every selection with the same dates that
    contains its colleges and year labels, and the records kept before
    are kept, in their order. *)
Theorem df_filtered_monotone d colleges colleges' years years' first last out :
  (∀ v, v ∈ colleges → v ∈ colleges') →
  (∀ v, v ∈ years → v ∈ years') →
  df_filtered d colleges years first last = inr out →
  ∃ out', df_filtered d colleges' years' first last = inr out'
          ∧ rows out `sublist_of` rows out'.
Proof.
  intros Hc Hy Hout.
  assert (∃ out', df_filtered d colleges' years' first last = inr out')
    as [out' Hout'].
  { revert Hout. unfold df_filtered.
    destruct (getitem "College Name" d); [done|].
    destruct (getitem "Year of Study Cleaned" d); [done|].
    destruct (getitem "Registration Date" d) as [|dates]; [done|]. simpl.
    destruct (series_ge dates first); [done|]. simpl.
    destruct (series_le dates last); [done|]. simpl. eauto. }
  exists out'. split; [done|].
  apply df_filtered_inr in Hout as [_ ->].
  apply df_filtered_inr in Hout' as [_ ->]. simpl.
  apply filter_sublist_impl. intros r. unfold meets.
  rewrite !andb_true_iff. intros [[[Hcr Hyr] ?] ?].
  split_and!; try done; by eapply existsb_subseteq.
Qed.

Lemma df_filtered_monotone_witness :
  ∃ out',
    df_filtered Fixture.registrations [VStr "MIT"; VStr "CMU"] [VStr "2"; VStr "3"]
                (VDate 19737) (VDate 19737) = inr out'
    ∧ rows Fixture.mit_registrations `sublist_of` rows out'.
Proof.
  apply (df_filtered_monotone Fixture.registrations [VStr "MIT"]
           [VStr "MIT"; VStr "CMU"] [VStr "2"] [VStr "2"; VStr "3"]
           (VDate 19737) (VDate 19737)).
  - intros v Hv. apply list_elem_of_singleton in Hv as ->. by left.
  - intros v Hv. apply list_elem_of_singleton in Hv as ->. by left.
  - vm_compute. reflexivity.
Defined.
